(** * add-icon-padding: transparent padding around an icon

    A shallow embedding of [scripts/add-icon-padding.py].  The script opens
    an image with Pillow, shrinks it with a Lanczos resize to a square whose
    side is a fraction of the smaller canvas dimension, pastes it centred on
    a fully transparent canvas of the original size and saves the canvas.

    What the script itself computes (the geometry, the order of the library
    calls, the argument handling) is modelled line by line.  The Pillow calls
    it makes are modelled after Pillow's implementation: [Image.new],
    [Image.paste] (with its clipping and its [BLEND] arithmetic) and the
    argument checks of [Image.resize].  The Lanczos convolution itself and the
    decimal parser behind [float(...)] stay parameters of the development. *)

From stdpp Require Import base gmap strings list.
From Stdlib Require Import ZArith Lia.
From Stdlib Require Floats.SpecFloat.

Local Open Scope Z_scope.

(** ** Python numbers *)

(** Python's [float] is an IEEE 754 binary64; [SpecFloat] gives its values
    and its correctly rounded multiplication. *)
Module Float64.

Abbreviation float := SpecFloat.spec_float.
Abbreviation Zero := SpecFloat.S754_zero.
Abbreviation Infinity := SpecFloat.S754_infinity.
Abbreviation NaN := SpecFloat.S754_nan.
Abbreviation Finite := SpecFloat.S754_finite.

Definition prec : Z := 53.
Definition emax : Z := 1024.

Definition mul : float -> float -> float := SpecFloat.SFmul prec emax.

(** The float nearest to an integer (ties to even); an infinity when the
    integer is beyond the range of the format. *)
Definition of_Z (n : Z) : float := SpecFloat.binary_normalize prec emax n 0 false.

Definition signed (s : bool) (m : positive) : Z := SpecFloat.cond_Zopp s (Z.pos m).

(** The integer part of the finite float [(-1)^s * m * 2^e], rounded
    towards zero. *)
Definition truncate (s : bool) (m : positive) (e : Z) : Z :=
  if decide (0 <= e) then signed s m * 2 ^ e
  else Z.quot (signed s m) (2 ^ (- e)).

(** The largest integer below or equal to the finite float
    [(-1)^s * m * 2^e]. *)
Definition floor (s : bool) (m : positive) (e : Z) : Z :=
  if decide (0 <= e) then signed s m * 2 ^ e
  else (signed s m) `div` (2 ^ (- e)).

(** The sign bit is clear: [+0.0], a positive finite number or [+inf]. *)
Definition sign_bit (x : float) : bool :=
  match x with
  | Zero s | Infinity s | Finite s _ _ => s
  | NaN => false
  end.

(** The literals of the script. *)
Definition lit_0_88 : float := Finite false 7926335344172073 (-53).
Definition lit_100 : float := Finite false 7036874417766400 (-46).

End Float64.

Import Float64.

(** ** Exceptions *)

Inductive value_error :=
| cannot_convert_float_NaN_to_integer
| could_not_convert_string_to_float (s : string)
| height_and_width_must_be_positive
| width_and_height_must_be_nonnegative
| images_do_not_match.

Inductive overflow_error :=
| cannot_convert_float_infinity_to_integer
| int_too_large_to_convert_to_float
| int_out_of_C_int_range.

Inductive exn :=
| SystemExit (code : Z)
| IndexError
| FileNotFoundError (path : string)
| UnidentifiedImageError (path : string)
| OSError (path : string)
| ValueError (why : value_error)
| OverflowError (why : overflow_error).

(** A pure computation that may raise. *)
Definition result (A : Type) : Type := exn + A.

Definition ok {A} (a : A) : result A := inr a.
Definition raise {A} (e : exn) : result A := inl e.

(** [int(x)] on a float. *)
Definition py_int (x : float) : result Z :=
  match x with
  | NaN => raise (ValueError cannot_convert_float_NaN_to_integer)
  | Infinity _ => raise (OverflowError cannot_convert_float_infinity_to_integer)
  | Zero _ => ok 0
  | Finite s m e => ok (truncate s m e)
  end.

(** [n * x] for an int [n] and a float [x]: the int is converted first. *)
Definition py_mul_int_float (n : Z) (x : float) : result float :=
  match of_Z n with
  | Infinity _ => raise (OverflowError int_too_large_to_convert_to_float)
  | f => ok (mul f x)
  end.

(** ** Pixels *)

(** One RGBA pixel, four [UINT8] bands. *)
Record rgba := RGBA { red : Z; green : Z; blue : Z; alpha : Z }.

Definition wf_rgba (p : rgba) : Prop :=
  0 <= red p < 256 /\ 0 <= green p < 256 /\ 0 <= blue p < 256 /\ 0 <= alpha p < 256.

(** The fill colour [(0, 0, 0, 0)] of the canvas. *)
Definition transparent : rgba := RGBA 0 0 0 0.

Definition UINT8 (a : Z) : Z := a `mod` 256.

(** Pillow's [DIV255] and [BLEND] macros. *)
Definition DIV255 (a : Z) : Z :=
  let tmp := a + 128 in ((tmp ≫ 8) + tmp) ≫ 8.

Definition BLEND (mask in1 in2 : Z) : Z :=
  DIV255 (in1 * (255 - mask) + in2 * mask).

(** The inner loop of [paste_mask_RGBA]: every band of the destination pixel
    is blended with the band of the source pixel, weighted by the alpha band
    of the mask pixel. *)
Definition blend_rgba (mask out in_ : rgba) : rgba :=
  let a := alpha mask in
  RGBA (UINT8 (BLEND a (red out) (red in_)))
       (UINT8 (BLEND a (green out) (green in_)))
       (UINT8 (BLEND a (blue out) (blue in_)))
       (UINT8 (BLEND a (alpha out) (alpha in_))).

(** ** Images *)

(** An RGBA image as Pillow's core holds it: [xsize], [ysize] and the array
    of rows [image32[y][x]]. *)
Record image := Image { width : Z; height : Z; rows : list (list rgba) }.

(** [im.size] *)
Definition size (im : image) : Z * Z := (width im, height im).

(** [im->image32[y][x]], undefined outside the buffer. *)
Definition pixel_at (im : image) (x y : Z) : option rgba :=
  if decide (0 <= x /\ 0 <= y) then
    row ← rows im !! Z.to_nat y; row !! Z.to_nat x
  else None.

Definition wf_row (w : Z) (row : list rgba) : Prop :=
  length row = Z.to_nat w /\ Forall wf_rgba row.

Definition wf_image (im : image) : Prop :=
  0 <= width im /\ 0 <= height im /\
  length (rows im) = Z.to_nat (height im) /\
  Forall (wf_row (width im)) (rows im).

(** The values a C [int] holds; Pillow's core parses sizes and boxes as such. *)
Definition fits_C_int (n : Z) : Prop := - 2 ^ 31 <= n < 2 ^ 31.

Global Instance fits_C_int_dec n : Decision (fits_C_int n).
Proof. unfold fits_C_int. apply _. Defined.

Global Instance result_ret : MRet result := fun A a => ok a.
Global Instance result_bind : MBind result := fun A B f m =>
  match m with
  | inl e => inl e
  | inr a => f a
  end.

(** The [w] by [h] image whose pixels all are [c]. *)
Definition uniform (w h : Z) (c : rgba) : image :=
  Image w h (replicate (Z.to_nat h) (replicate (Z.to_nat w) c)).

(** [Image.new("RGBA", size, color)] *)
Definition Image_new (size : Z * Z) (color : rgba) : result image :=
  let '(w, h) := size in
  if decide (w < 0 \/ h < 0) then
    raise (ValueError width_and_height_must_be_nonnegative)
  else ok (uniform w h color).

(** One step of the inner loop of [paste_mask_RGBA], at row [j] and column
    [i] of [imOut]: inside the [xsize] by [ysize] block at [(dx, dy)] the
    pixel [out] is blended with the pixel of [imIn] found at the same place
    of the block at [(sx, sy)], the weight being the alpha band of the pixel
    of [imMask] there. *)
Definition paste_pixel (imIn imMask : image) (dx dy sx sy xsize ysize : Z)
    (j i : nat) (out : rgba) : rgba :=
  let x := Z.of_nat i - dx in
  let y := Z.of_nat j - dy in
  if decide (0 <= x < xsize /\ 0 <= y < ysize) then
    match pixel_at imIn (x + sx) (y + sy), pixel_at imMask (x + sx) (y + sy) with
    | Some in_, Some mask => blend_rgba mask out in_
    | _, _ => out
    end
  else out.

(** [paste_mask_RGBA]: the loop over the block; the bands of [imOut] outside
    the block are not written. *)
Definition paste_mask_RGBA (imOut imIn imMask : image)
    (dx dy sx sy xsize ysize : Z) : image :=
  Image (width imOut) (height imOut)
        (imap (fun j row =>
                 imap (paste_pixel imIn imMask dx dy sx sy xsize ysize j) row)
              (rows imOut)).

(** [ImagingPaste]: the box must have the size of the pasted image and of
    the mask; the part of the box that falls outside [imOut] is clipped.
    The C ints of the core do not wrap on the boxes [Image_paste] lets
    through for images whose sizes are C ints, and are integers here. *)
Definition ImagingPaste (imOut imIn imMask : image) (dx0 dy0 dx1 dy1 : Z)
    : result image :=
  let xsize := dx1 - dx0 in
  let ysize := dy1 - dy0 in
  if decide (xsize <> width imIn \/ ysize <> height imIn) then
    raise (ValueError images_do_not_match)
  else if decide (xsize <> width imMask \/ ysize <> height imMask) then
    raise (ValueError images_do_not_match)
  else
    (* Determine which region to copy *)
    let '(xsize, sx0, dx0) :=
      if decide (dx0 < 0) then (xsize + dx0, - dx0, 0) else (xsize, 0, dx0) in
    let xsize :=
      if decide (dx0 + xsize > width imOut) then width imOut - dx0 else xsize in
    let '(ysize, sy0, dy0) :=
      if decide (dy0 < 0) then (ysize + dy0, - dy0, 0) else (ysize, 0, dy0) in
    let ysize :=
      if decide (dy0 + ysize > height imOut) then height imOut - dy0 else ysize in
    if decide (xsize <= 0 \/ ysize <= 0) then ok imOut
    else ok (paste_mask_RGBA imOut imIn imMask dx0 dy0 sx0 sy0 xsize ysize).

(** [self.paste(im, box, mask)] with a two-item box: the lower right corner
    is taken from the size of [im]; the core parses the four coordinates as
    C ints.  [self] is updated in place, which the model renders by returning
    the new value of [self]. *)
Definition Image_paste (self im : image) (box : Z * Z) (mask : image)
    : result image :=
  let '(x0, y0) := box in
  let x1 := width im + x0 in
  let y1 := height im + y0 in
  if decide (fits_C_int x0 /\ fits_C_int y0 /\ fits_C_int x1 /\ fits_C_int y1) then
    ImagingPaste self im mask x0 y0 x1 y1
  else raise (OverflowError int_out_of_C_int_range).

(** ** The file system and the standard output *)

(** A file either holds an image Pillow can decode, given here by its
    conversion to RGBA, or something else. *)
Inductive file :=
| ImageFile (im : image)
| OtherFile (content : list Z).

(** The lines the script prints, without their decoration. *)
Inductive line :=
| Usage                                (* "Usage: python3 add-icon-padding.py ..." *)
| Example_usage                        (* "Example: python3 add-icon-padding.py ..." *)
| Original_size (width height : Z)     (* "Original size: {width}x{height}" *)
| Content_size (new_size percent : Z)  (* "Content size: {new_size}x{new_size} ({..}% of canvas)" *)
| Saved (output_path : string)         (* "Saved icon with transparent padding: {output_path}" *)
| Transparent_margins (offset : Z)     (* "Transparent margins: {offset}px on each side" *)
| Keep_transparent.                    (* "Keep this transparent! ..." *)

(** What a run can read and change: the files, the paths that cannot be
    opened for writing, and what was printed so far.  The standard output
    takes every line. *)
Record world := World {
  files : gmap string file;
  unwritable : gset string;
  stdout : list line
}.

(** A computation of the script: it may change the world, and it returns or
    raises. *)
Definition M (A : Type) : Type := world -> world * result A.

Global Instance M_ret : MRet M := fun A a w => (w, ok a).
Global Instance M_bind : MBind M := fun A B f m w =>
  match m w with
  | (w', inl e) => (w', inl e)
  | (w', inr a) => f a w'
  end.

Definition lift {A} (r : result A) : M A := fun w => (w, r).

Definition print (l : line) : M unit := fun w =>
  (World (files w) (unwritable w) (stdout w ++ [l]), ok ()).

(** [Image.open(path).convert("RGBA")]: a missing file and a file no plugin
    identifies are refused; a plugin that reads a width or a height below one
    does not identify the file.  A file that exists is taken to be readable,
    and the decoder to have the memory it needs. *)
Definition Image_open_RGBA (path : string) : M image := fun w =>
  match files w !! path with
  | None => (w, raise (FileNotFoundError path))
  | Some (OtherFile _) => (w, raise (UnidentifiedImageError path))
  | Some (ImageFile im) =>
      if decide (width im <= 0 \/ height im <= 0) then
        (w, raise (UnidentifiedImageError path))
      else (w, ok im)
  end.

(** [im.save(path, "PNG")]: the file is replaced, unless the path cannot be
    opened for writing. *)
Definition Image_save (im : image) (path : string) : M unit := fun w =>
  if decide (path ∈ unwritable w) then (w, raise (OSError path))
  else (World (<[path := ImageFile im]> (files w)) (unwritable w) (stdout w), ok ()).

(** The exit status of the process. *)
Definition exit_status (r : result unit) : Z :=
  match r with
  | inr _ => 0
  | inl (SystemExit code) => code
  | inl _ => 1
  end.

(** What a run does to a world: it may save an image at the output path,
    and it prints lines. *)
Definition effect (output_path : string) (saved : option image)
    (lines : list line) (w : world) : world :=
  World (match saved with
         | Some res => <[output_path := ImageFile res]> (files w)
         | None => files w
         end)
        (unwritable w) (stdout w ++ lines).

(** ** The script *)

Section Script.

(** [ImagingResample] with the Lanczos filter, between the conversions to
    and from premultiplied alpha that [Image.resize] wraps around it for an
    RGBA image: the image and the requested [xsize] and [ysize]. *)
Variable resample : image -> Z -> Z -> image.

(** The decimal parser of [float(s)]; [None] when [s] is no float literal. *)
Variable float_of_string : string -> option float.

(** [self.resize(size, Image.LANCZOS)]: an image that already has the
    requested size is copied; otherwise the core parses the size as two C
    ints and refuses a size below one. *)
Definition Image_resize (self : image) (sz : Z * Z) : result image :=
  if decide (size self = sz) then ok self
  else
    let '(xsize, ysize) := sz in
    if decide (fits_C_int xsize /\ fits_C_int ysize) then
      if decide (xsize < 1 \/ ysize < 1) then
        raise (ValueError height_and_width_must_be_positive)
      else ok (resample self xsize ysize)
    else raise (OverflowError int_out_of_C_int_range).

(** [float(s)] *)
Definition py_float (s : string) : result float :=
  match float_of_string s with
  | Some x => ok x
  | None => raise (ValueError (could_not_convert_string_to_float s))
  end.

(** Line 28: [int(min(width, height) * content_percent)] *)
Definition new_size_of (width height : Z) (content_percent : float) : result Z :=
  product ← py_mul_int_float (Z.min width height) content_percent;
  py_int product.

(** Line 39: [(width - new_size) // 2] *)
Definition offset_of (width new_size : Z) : Z := (width - new_size) `div` 2.

(** Line 33: [int(content_percent*100)] *)
Definition percent_of (content_percent : float) : result Z :=
  py_int (mul content_percent lit_100).

Definition add_transparent_padding
    (input_path output_path : string) (content_percent : float) : M unit :=
  (* Open image *)
  img ← Image_open_RGBA input_path;
  let '(width, height) := size img in
  _ ← print (Original_size width height);
  (* Calculate new content size *)
  new_size ← lift (new_size_of width height content_percent);
  (* Resize content *)
  img_resized ← lift (Image_resize img (new_size, new_size));
  percent ← lift (percent_of content_percent);
  _ ← print (Content_size new_size percent);
  (* Create transparent canvas *)
  result ← lift (Image_new (width, height) transparent);
  (* Center the content *)
  let offset := offset_of width new_size in
  result ← lift (Image_paste result img_resized (offset, offset) img_resized);
  (* Save *)
  _ ← Image_save result output_path;
  _ ← print (Saved output_path);
  _ ← print (Transparent_margins offset);
  print Keep_transparent.

(** [sys.argv[i]] *)
Definition sys_argv (argv : list string) (i : nat) : result string :=
  match argv !! i with
  | Some s => ok s
  | None => raise IndexError
  end.

(** The body of [if __name__ == "__main__":], run on [sys.argv]. *)
Definition main (argv : list string) : M unit :=
  if decide (length argv < 3)%nat then
    _ ← print Usage;
    _ ← print Example_usage;
    lift (raise (SystemExit 1))
  else
    input_file ← lift (sys_argv argv 1);
    output_file ← lift (sys_argv argv 2);
    content ← lift (if decide (3 < length argv)%nat
                    then s ← sys_argv argv 3; py_float s
                    else ok lit_0_88);
    add_transparent_padding input_file output_file content.

(** What a run that returns has printed. *)
Definition printed (img : image) (new_size percent : Z) (output_path : string)
    : list line :=
  [ Original_size (width img) (height img);
    Content_size new_size percent;
    Saved output_path;
    Transparent_margins (offset_of (width img) new_size);
    Keep_transparent ].

(** The steps of a run that returns: the image opened, the content size,
    the resized content, the percentage printed and the canvas saved. *)
Definition returns (input_path output_path : string) (content_percent : float)
    (w w' : world) (img : image) (new_size : Z) (img_resized : image)
    (percent : Z) (res : image) : Prop :=
  files w !! input_path = Some (ImageFile img) /\
  1 <= width img /\ 1 <= height img /\
  new_size_of (width img) (height img) content_percent = ok new_size /\
  Image_resize img (new_size, new_size) = ok img_resized /\
  percent_of content_percent = ok percent /\
  Image_paste (uniform (width img) (height img) transparent) img_resized
    (offset_of (width img) new_size, offset_of (width img) new_size)
    img_resized = ok res /\
  (output_path ∉ unwritable w) /\
  w' = World (<[output_path := ImageFile res]> (files w)) (unwritable w)
             (stdout w ++ printed img new_size percent output_path).

End Script.

(** ** A sample resampler and a sample parser

    Nearest-neighbour sampling stands in for the Lanczos filter, and a parser
    that knows a few literals for [float], wherever a statement is to
    be tried on concrete data. *)

Definition nearest (im : image) (xsize ysize : Z) : image :=
  Image xsize ysize
    ((fun y : nat =>
        (fun x : nat =>
           default transparent
             (pixel_at im ((Z.of_nat x * width im) `div` xsize)
                          ((Z.of_nat y * height im) `div` ysize)))
        <$> seq 0 (Z.to_nat xsize))
     <$> seq 0 (Z.to_nat ysize)).

Definition minus_half : float := Finite true 4503599627370496 (-53).
Definition one_third : float := Finite false 6004799503160661 (-54).

Definition sample_float_of_string (s : string) : option float :=
  if decide (s = "0.88") then Some lit_0_88
  else if decide (s = "0.5") then Some (Finite false 4503599627370496 (-53))
  else if decide (s = "-0.5") then Some minus_half
  else if decide (s = "1.0") then Some (Finite false 4503599627370496 (-52))
  else if decide (s = "2.0") then Some (Finite false 4503599627370496 (-51))
  else if decide (s = "nan") then Some NaN
  else if decide (s = "inf") then Some (Infinity false)
  else None.

Definition opaque_red : rgba := RGBA 255 0 0 255.
Definition opaque_blue : rgba := RGBA 0 0 255 255.
Definition half_green : rgba := RGBA 0 255 0 128.

(** A 4 by 4 icon with transparent corners and one translucent pixel. *)
Definition sample_icon : image :=
  Image 4 4
    [ [transparent; opaque_red; opaque_red;  transparent];
      [opaque_red;  half_green; opaque_red;  opaque_red];
      [opaque_red;  opaque_red; opaque_blue; opaque_red];
      [transparent; opaque_red; opaque_red;  transparent] ].

Definition sample_world : world :=
  World {[ "icon.png" := ImageFile sample_icon;
           "wide.png" := ImageFile (uniform 8 6 opaque_red);
           "notes.txt" := OtherFile [104; 105] ]} ∅ [].

(** Another world with the same icon: the output path is taken, one path
    is locked and something was printed before. *)
Definition other_world : world :=
  World {[ "icon.png" := ImageFile sample_icon;
           "out.png" := OtherFile [0] ]} {[ "locked.png" ]} [Usage].

(** The world of the end-to-end example. *)
Definition red_world : world :=
  World {[ "icon.png" := ImageFile (uniform 1024 1024 opaque_red) ]} ∅ [].

(** The sample world after the script has run on the icon. *)
Definition sample_after : world :=
  fst (add_transparent_padding nearest "icon.png" "out.png" lit_0_88 sample_world).

(** ** More sample data *)

Definition one : float := Finite false 4503599627370496 (-52).

(** A 2 by 2 fully opaque icon. *)
Definition checker_icon : image :=
  Image 2 2 [ [opaque_red; opaque_blue]; [opaque_blue; opaque_red] ].

(** A world with the opaque icon and a strip much wider than high; one path
    cannot be written. *)
Definition more_world : world :=
  World {[ "checker.png" := ImageFile checker_icon;
           "strip.png" := ImageFile (uniform 20 6 opaque_red) ]}
        {[ "locked.png" ]} [].

(** Every pixel of the image has alpha 255. *)
Definition fully_opaque (im : image) : Prop :=
  Forall (Forall (fun p => alpha p = 255)) (rows im).

(** The band [r] is the nearest integer to [c * a / 255]. *)
Definition scaled_band (c a r : Z) : Prop :=
  0 <= r < 256 /\ Z.abs (255 * r - c * a) <= 127.

Definition scaled_band_check (c a : nat) : bool :=
  let r := UINT8 (BLEND (Z.of_nat a) 0 (Z.of_nat c)) in
  (0 <=? r) && (r <? 256) &&
  (Z.abs (255 * r - Z.of_nat c * Z.of_nat a) <=? 127).

(** ** The content size as the specification words it *)

(** [floor(x)] on a float, as [math.floor]. *)
Definition py_floor (x : float) : result Z :=
  match x with
  | NaN => raise (ValueError cannot_convert_float_NaN_to_integer)
  | Infinity _ => raise (OverflowError cannot_convert_float_infinity_to_integer)
  | Zero _ => ok 0
  | Finite s m e => ok (floor s m e)
  end.

(** [floor(min(width, height) * content_percent)] *)
Definition floor_size_of (width height : Z) (content_percent : float) : result Z :=
  product ← py_mul_int_float (Z.min width height) content_percent;
  py_floor product.

(** [ceil(x)] on a float, as [math.ceil]. *)
Definition py_ceil (x : float) : result Z :=
  match x with
  | NaN => raise (ValueError cannot_convert_float_NaN_to_integer)
  | Infinity _ => raise (OverflowError cannot_convert_float_infinity_to_integer)
  | Zero _ => ok 0
  | Finite s m e => ok (- floor (negb s) m e)
  end.

(** [ceil(min(width, height) * content_percent)] *)
Definition ceil_size_of (width height : Z) (content_percent : float) : result Z :=
  product ← py_mul_int_float (Z.min width height) content_percent;
  py_ceil product.

(** * Properties *)

(** ** Band arithmetic *)

Lemma DIV255_mul_255 v : 0 <= v < 256 -> DIV255 (v * 255) = v.
Proof.
  intros Hv. unfold DIV255. rewrite !Z.shiftr_div_pow2 by lia.
  change (2 ^ 8) with 256.
  assert (H1 : v - 1 <= (v * 255 + 128) `div` 256 <= v).
  { split.
    - apply Z.div_le_lower_bound; lia.
    - apply Z.lt_succ_r, Z.div_lt_upper_bound; lia. }
  symmetry. apply Z.div_unique with
    (r := (v * 255 + 128) `div` 256 + v * 255 + 128 - 256 * v); lia.
Qed.

Lemma BLEND_0 out in_ : 0 <= out < 256 -> BLEND 0 out in_ = out.
Proof.
  intros H. unfold BLEND. rewrite Z.mul_0_r, Z.add_0_r.
  change (255 - 0) with 255. by apply DIV255_mul_255.
Qed.

Lemma BLEND_255 out in_ : 0 <= in_ < 256 -> BLEND 255 out in_ = in_.
Proof.
  intros H. unfold BLEND. change (255 - 255) with 0.
  rewrite Z.mul_0_r, Z.add_0_l. by apply DIV255_mul_255.
Qed.

Lemma UINT8_small v : 0 <= v < 256 -> UINT8 v = v.
Proof. intros H. unfold UINT8. by apply Z.mod_small. Qed.

(** A fully transparent mask pixel leaves the destination pixel as it is. *)
Lemma blend_rgba_transparent_mask mask out in_ :
  alpha mask = 0 -> wf_rgba out -> blend_rgba mask out in_ = out.
Proof.
  intros Ha (Hr & Hg & Hb & Hal). unfold blend_rgba. rewrite Ha.
  rewrite !BLEND_0, !UINT8_small by done. by destruct out.
Qed.

(** A fully opaque mask pixel replaces the destination pixel by the source
    pixel. *)
Lemma blend_rgba_opaque_mask mask out in_ :
  alpha mask = 255 -> wf_rgba in_ -> blend_rgba mask out in_ = in_.
Proof.
  intros Ha (Hr & Hg & Hb & Hal). unfold blend_rgba. rewrite Ha.
  rewrite !BLEND_255, !UINT8_small by done. by destruct in_.
Qed.

Lemma wf_transparent : wf_rgba transparent.
Proof. unfold wf_rgba, transparent. simpl. lia. Qed.

(** ** Reading pixels *)

Lemma pixel_at_uniform w h c x y :
  0 <= x < w -> 0 <= y < h -> pixel_at (uniform w h c) x y = Some c.
Proof.
  intros Hx Hy. unfold pixel_at, uniform. simpl.
  rewrite decide_True by lia.
  rewrite lookup_replicate_2 by lia. simpl.
  apply lookup_replicate_2. lia.
Qed.

(** The paste loop writes a pixel of [imOut] as [paste_pixel] says, and no
    other. *)
Lemma pixel_at_paste_mask_RGBA imOut imIn imMask dx dy sx sy xsize ysize x y :
  pixel_at (paste_mask_RGBA imOut imIn imMask dx dy sx sy xsize ysize) x y =
  paste_pixel imIn imMask dx dy sx sy xsize ysize (Z.to_nat y) (Z.to_nat x)
    <$> pixel_at imOut x y.
Proof.
  unfold pixel_at, paste_mask_RGBA. simpl.
  case_decide; [|done].
  rewrite list_lookup_imap.
  destruct (rows imOut !! Z.to_nat y) as [row|]; [|done]. simpl.
  by rewrite list_lookup_imap.
Qed.

(** Pasting an image, with itself as the mask, on a uniform canvas: the
    pixels of the canvas under the box [[x0, x0 + width) x [y0, y0 + height)]
    are blended with the pixels of the image, the others keep the colour of
    the canvas. *)
Lemma Image_paste_uniform w h c im x0 y0 res :
  Image_paste (uniform w h c) im (x0, y0) im = ok res ->
  width res = w /\ height res = h /\
  forall x y, 0 <= x < w -> 0 <= y < h ->
    pixel_at res x y =
    Some (if decide (x0 <= x < x0 + width im /\ y0 <= y < y0 + height im) then
            match pixel_at im (x - x0) (y - y0) with
            | Some q => blend_rgba q c q
            | None => c
            end
          else c).
Proof.
  unfold Image_paste, ImagingPaste.
  case_decide as Hfit; [|done].
  rewrite decide_False by lia. rewrite decide_False by lia.
  intros Hres.
  destruct (decide (x0 < 0)) as [Hx0|Hx0], (decide (y0 < 0)) as [Hy0|Hy0];
    simpl in Hres;
    repeat (let H := fresh in case_decide as H; simpl in H);
    injection Hres as <-; simpl;
    (split; [done|split; [done|]]); intros x y Hx Hy;
    rewrite ?pixel_at_paste_mask_RGBA, pixel_at_uniform by done; simpl;
    unfold paste_pixel; rewrite ?Z2Nat.id by lia;
    repeat case_decide; try lia; try done;
    repeat match goal with
           | |- context [pixel_at im ?a ?b] =>
               progress replace a with (x - x0) by lia
           | |- context [pixel_at im ?a ?b] =>
               progress replace b with (y - y0) by lia
           end;
    by destruct (pixel_at im (x - x0) (y - y0)).
Qed.

(** ** Well-formed images *)

Lemma wf_blend_rgba mask out in_ : wf_rgba (blend_rgba mask out in_).
Proof.
  unfold wf_rgba, blend_rgba, UINT8. simpl.
  repeat split; by apply Z.mod_pos_bound.
Qed.

Lemma wf_paste_pixel imIn imMask dx dy sx sy xsize ysize j i out :
  wf_rgba out ->
  wf_rgba (paste_pixel imIn imMask dx dy sx sy xsize ysize j i out).
Proof.
  intros Hout. unfold paste_pixel.
  case_decide; [|done].
  destruct (pixel_at imIn _ _); [|done].
  destruct (pixel_at imMask _ _); [|done].
  apply wf_blend_rgba.
Qed.

Lemma wf_uniform w h c : 0 <= w -> 0 <= h -> wf_rgba c -> wf_image (uniform w h c).
Proof.
  intros Hw Hh Hc. unfold wf_image, uniform. simpl.
  split; [done|]. split; [done|].
  split; [by rewrite length_replicate|].
  apply Forall_replicate. split; [by rewrite length_replicate|].
  by apply Forall_replicate.
Qed.

(** The paste loop keeps the buffer in shape and its bands in range. *)
Lemma wf_paste_mask_RGBA imOut imIn imMask dx dy sx sy xsize ysize :
  wf_image imOut ->
  wf_image (paste_mask_RGBA imOut imIn imMask dx dy sx sy xsize ysize).
Proof.
  intros (Hw & Hh & Hlen & Hrows). unfold wf_image, paste_mask_RGBA. simpl.
  split; [done|]. split; [done|].
  split; [by rewrite length_imap|].
  apply Forall_lookup. intros j row' Hrow'.
  rewrite list_lookup_imap in Hrow'.
  destruct (rows imOut !! j) as [row|] eqn:Hrow; [|done].
  injection Hrow' as <-.
  pose proof (Forall_lookup_1 _ _ _ _ Hrows Hrow) as [Hlenrow Hpix].
  split; [by rewrite length_imap|].
  apply Forall_lookup. intros i p' Hp'.
  rewrite list_lookup_imap in Hp'.
  destruct (row !! i) as [p|] eqn:Hp; [|done].
  injection Hp' as <-.
  apply wf_paste_pixel. by eapply Forall_lookup_1.
Qed.

Lemma wf_Image_paste self im box mask res :
  wf_image self -> Image_paste self im box mask = ok res -> wf_image res.
Proof.
  intros Hself. unfold Image_paste, ImagingPaste. destruct box as [x0 y0].
  case_decide; [|done].
  case_decide; [done|]. case_decide; [done|].
  destruct (decide (x0 < 0)), (decide (y0 < 0)); simpl;
    repeat case_decide; intros [= <-];
    done || by apply wf_paste_mask_RGBA.
Qed.

(** ** Floats *)

(** [floor] is the floor of the value [(-1)^s * m * 2^e]. *)
Lemma floor_spec s m e :
  e < 0 ->
  floor s m e * 2 ^ (- e) <= signed s m < (floor s m e + 1) * 2 ^ (- e).
Proof.
  intros He. unfold floor. rewrite decide_False by lia.
  assert (Hp : 0 < 2 ^ (- e)) by (apply Z.pow_pos_nonneg; lia).
  pose proof (Z.div_mod (signed s m) (2 ^ (- e)) ltac:(lia)) as Hdm.
  pose proof (Z.mod_pos_bound (signed s m) (2 ^ (- e)) Hp) as Hmod.
  lia.
Qed.

(** Rounding towards zero is the floor of a float that is not negative. *)
Lemma truncate_nonneg m e : truncate false m e = floor false m e.
Proof.
  unfold truncate, floor. case_decide; [done|].
  apply Z.quot_div_nonneg; [done|]. apply Z.pow_pos_nonneg; lia.
Qed.

(** Rounding towards zero is the ceiling of a negative float. *)
Lemma truncate_neg m e : truncate true m e = - floor false m e.
Proof.
  unfold truncate, floor, signed. simpl. case_decide; [lia|].
  assert (Hp : 0 < 2 ^ (- e)) by (apply Z.pow_pos_nonneg; lia).
  change (Z.neg m) with (- Z.pos m).
  rewrite Z.quot_opp_l by lia. f_equal.
  apply Z.quot_div_nonneg; [done|lia].
Qed.

Lemma py_int_nonneg x : sign_bit x = false -> py_int x = py_floor x.
Proof.
  destruct x as [s|s| |s m e]; simpl; intros Hs; try done.
  subst s. by rewrite truncate_nonneg.
Qed.

Lemma py_int_neg x : sign_bit x = true -> py_int x = py_ceil x.
Proof.
  destruct x as [s|s| |s m e]; simpl; intros Hs; try done.
  subst s. simpl. by rewrite truncate_neg.
Qed.

(** Rounding keeps the sign it is given. *)
Lemma binary_round_aux_sign sx mx ex lx :
  sign_bit (SpecFloat.binary_round_aux prec emax sx mx ex lx) = sx \/
  SpecFloat.binary_round_aux prec emax sx mx ex lx = NaN.
Proof.
  unfold SpecFloat.binary_round_aux.
  destruct (SpecFloat.shr_fexp prec emax mx ex lx) as [mrs' e'].
  destruct (SpecFloat.shr_fexp prec emax _ e' SpecFloat.loc_Exact) as [mrs'' e''].
  destruct (SpecFloat.shr_m mrs'') as [|p|p]; [by left| |by right].
  destruct (e'' <=? emax - prec)%Z; by left.
Qed.

Lemma of_Z_sign n : 0 <= n -> sign_bit (of_Z n) = false.
Proof.
  intros Hn. destruct n as [|p|p]; [done| |lia].
  unfold of_Z, SpecFloat.binary_normalize, SpecFloat.binary_round.
  destruct (SpecFloat.shl_align _ _ _) as [mz ez].
  destruct (binary_round_aux_sign false (Z.pos mz) ez SpecFloat.loc_Exact)
    as [H|H]; by rewrite H.
Qed.

(** The literal [0.88] is the float nearest to 88/100: its distance to
    88/100 is at most half a unit in the last place, [2^-54]. *)
Lemma lit_0_88_nearest :
  SpecFloat.valid_binary prec emax lit_0_88 = true /\
  Z.abs (100 * 7926335344172073 - 88 * 2 ^ 53) * 2 <= 100.
Proof. split; [by vm_compute | by vm_compute]. Qed.

Lemma lit_100_exact : lit_100 = of_Z 100.
Proof. by vm_compute. Qed.

(** ** Runs of the script *)

Arguments Image_paste : simpl never.
Arguments Image_resize : simpl never.
Arguments new_size_of : simpl never.
Arguments percent_of : simpl never.
Arguments offset_of : simpl never.
Arguments uniform : simpl never.
Arguments mul : simpl never.
Arguments of_Z : simpl never.

Section Properties.

Variable resample : image -> Z -> Z -> image.

(** The resampler returns an image of the size it is asked for. *)
Hypothesis resample_size : forall im xsize ysize,
  1 <= xsize -> 1 <= ysize -> size (resample im xsize ysize) = (xsize, ysize).

Lemma add_transparent_padding_returns input_path output_path content_percent w w' :
  add_transparent_padding resample input_path output_path content_percent w
    = (w', ok ()) <->
  exists img new_size img_resized percent res,
    returns resample input_path output_path content_percent w w'
      img new_size img_resized percent res.
Proof.
  unfold add_transparent_padding, returns, printed, Image_open_RGBA.
  unfold mbind, M_bind, lift, print, Image_save, Image_new, size, ok, raise.
  split.
  - destruct (files w !! input_path) as [[img|?]|] eqn:Hin; try done.
    case_decide as Hdim; [done|]. simpl.
    destruct (new_size_of _ _ _) as [?|new_size] eqn:Hns; [done|]. simpl.
    destruct (Image_resize _ _ _) as [?|img_resized] eqn:Hrs; [done|].
    destruct (percent_of _) as [?|percent] eqn:Hpc; [done|]. simpl.
    rewrite decide_False by lia.
    destruct (Image_paste _ _ _ _) as [?|res] eqn:Hpaste; [done|]. simpl.
    case_decide as Hw; [done|]. simpl.
    intros [= <-].
    exists img, new_size, img_resized, percent, res.
    rewrite <- !(assoc_L (++)). simpl.
    repeat split; try done; lia.
  - intros (img & new_size & img_resized & percent & res
            & Hin & Hw1 & Hh1 & Hns & Hrs & Hpc & Hpaste & Hw & ->).
    rewrite Hin. rewrite decide_False by lia. simpl.
    rewrite Hns. simpl. rewrite Hrs. simpl. rewrite Hpc. simpl.
    rewrite decide_False by lia. rewrite Hpaste. simpl.
    rewrite decide_False by done. simpl.
    by rewrite <- !(assoc_L (++)).
Qed.

(** The resized content has the size that was asked for. *)
Lemma Image_resize_size img sz img_resized :
  Image_resize resample img sz = ok img_resized -> size img_resized = sz.
Proof.
  unfold Image_resize. destruct sz as [xsize ysize].
  case_decide as Hsame; [by intros [= <-]|].
  case_decide as Hfit; [|done].
  case_decide as Hpos; [done|].
  intros [= <-]. apply resample_size; lia.
Qed.

(** A resize that returns was asked for a size of at least one. *)
Lemma Image_resize_positive img new_size img_resized :
  1 <= width img -> 1 <= height img ->
  Image_resize resample img (new_size, new_size) = ok img_resized ->
  1 <= new_size.
Proof.
  intros Hw Hh. unfold Image_resize, size.
  case_decide as Hsame; [injection Hsame; lia|].
  case_decide as Hfit; [|done].
  case_decide as Hpos; [done|]. lia.
Qed.

(** The file a run that returns leaves at the output path. *)
Lemma returns_output input_path output_path content_percent w w'
    img new_size img_resized percent res :
  returns resample input_path output_path content_percent w w'
    img new_size img_resized percent res ->
  files w' !! output_path = Some (ImageFile res).
Proof.
  intros (_ & _ & _ & _ & _ & _ & _ & _ & ->). simpl.
  apply lookup_insert_eq.
Qed.

(** The pixels of the canvas a run that returns has saved, given the size
    of the resized content. *)
Lemma returns_pixels_sized input_path output_path content_percent w w'
    img new_size img_resized percent res :
  returns resample input_path output_path content_percent w w'
    img new_size img_resized percent res ->
  size img_resized = (new_size, new_size) ->
  let offset := offset_of (width img) new_size in
  width res = width img /\ height res = height img /\
  forall x y, 0 <= x < width img -> 0 <= y < height img ->
    pixel_at res x y =
    Some (if decide (offset <= x < offset + new_size /\
                     offset <= y < offset + new_size) then
            match pixel_at img_resized (x - offset) (y - offset) with
            | Some q => blend_rgba q transparent q
            | None => transparent
            end
          else transparent).
Proof.
  intros (_ & _ & _ & _ & _ & _ & Hpaste & _ & _) Hrs offset.
  injection Hrs as Hrw Hrh.
  apply Image_paste_uniform in Hpaste as (Hw & Hh & Hpix).
  fold offset in Hpix. rewrite Hrw, Hrh in Hpix. done.
Qed.

Lemma returns_pixels input_path output_path content_percent w w'
    img new_size img_resized percent res :
  returns resample input_path output_path content_percent w w'
    img new_size img_resized percent res ->
  let offset := offset_of (width img) new_size in
  width res = width img /\ height res = height img /\
  forall x y, 0 <= x < width img -> 0 <= y < height img ->
    pixel_at res x y =
    Some (if decide (offset <= x < offset + new_size /\
                     offset <= y < offset + new_size) then
            match pixel_at img_resized (x - offset) (y - offset) with
            | Some q => blend_rgba q transparent q
            | None => transparent
            end
          else transparent).
Proof.
  intros Hret. eapply returns_pixels_sized; [exact Hret|].
  apply Image_resize_size with img. apply Hret.
Qed.

(** C2. Dimension preservation: the image a run that returns has saved at
    the output path has the width and the height of the image it opened at
    the input path, and its buffer holds that many rows of that many
    pixels. *)
Theorem dimension_preservation input_path output_path content_percent w w' :
  add_transparent_padding resample input_path output_path content_percent w
    = (w', ok ()) ->
  exists img res,
    files w !! input_path = Some (ImageFile img) /\
    files w' !! output_path = Some (ImageFile res) /\
    width res = width img /\ height res = height img /\
    wf_image res.
Proof.
  intros Hrun.
  apply add_transparent_padding_returns in Hrun
    as (img & new_size & img_resized & percent & res & Hret).
  exists img, res.
  split; [apply Hret|]. split; [by eapply returns_output|].
  destruct Hret as (_ & Hw & Hh & _ & _ & _ & Hpaste & _ & _).
  assert (Hwf : wf_image res).
  { eapply wf_Image_paste; [|exact Hpaste].
    apply wf_uniform; [lia..|apply wf_transparent]. }
  split; [|split; [|done]].
  - by apply Image_paste_uniform in Hpaste as (? & _).
  - by apply Image_paste_uniform in Hpaste as (_ & ? & _).
Qed.

(** C1. Transparency of the margin: in the image a run that returns has
    saved, every pixel outside the square
    [[offset, offset + new_size) x [offset, offset + new_size)] has alpha 0. *)
Theorem margin_transparent input_path output_path content_percent w w' :
  add_transparent_padding resample input_path output_path content_percent w
    = (w', ok ()) ->
  exists img new_size res,
    files w !! input_path = Some (ImageFile img) /\
    new_size_of (width img) (height img) content_percent = ok new_size /\
    files w' !! output_path = Some (ImageFile res) /\
    let offset := offset_of (width img) new_size in
    forall x y, 0 <= x < width res -> 0 <= y < height res ->
      ~ (offset <= x < offset + new_size /\ offset <= y < offset + new_size) ->
      exists p, pixel_at res x y = Some p /\ alpha p = 0.
Proof.
  intros Hrun.
  apply add_transparent_padding_returns in Hrun
    as (img & new_size & img_resized & percent & res & Hret).
  exists img, new_size, res.
  split; [apply Hret|]. split; [apply Hret|].
  split; [by eapply returns_output|].
  destruct (returns_pixels _ _ _ _ _ _ _ _ _ _ Hret) as (Hw & Hh & Hpix).
  intros offset x y Hx Hy Hout. exists transparent.
  rewrite Hpix by lia. fold offset. by rewrite decide_False.
Qed.

(** C5. The mask of the paste is the resized content itself: a pixel of
    the resized content that lands on the canvas is blended into it with
    its own alpha band as the weight, and where that pixel is fully
    transparent the pixel of the canvas stays fully transparent. *)
Theorem paste_mask_is_own_alpha input_path output_path content_percent w w' :
  add_transparent_padding resample input_path output_path content_percent w
    = (w', ok ()) ->
  exists img new_size img_resized res,
    files w !! input_path = Some (ImageFile img) /\
    new_size_of (width img) (height img) content_percent = ok new_size /\
    Image_resize resample img (new_size, new_size) = ok img_resized /\
    files w' !! output_path = Some (ImageFile res) /\
    let offset := offset_of (width img) new_size in
    forall i j q,
      0 <= i < new_size -> 0 <= j < new_size ->
      pixel_at img_resized i j = Some q ->
      0 <= offset + i < width res -> 0 <= offset + j < height res ->
      pixel_at res (offset + i) (offset + j)
        = Some (blend_rgba q transparent q) /\
      (alpha q = 0 ->
       pixel_at res (offset + i) (offset + j) = Some transparent).
Proof.
  intros Hrun.
  apply add_transparent_padding_returns in Hrun
    as (img & new_size & img_resized & percent & res & Hret).
  exists img, new_size, img_resized, res.
  split; [apply Hret|]. split; [apply Hret|]. split; [apply Hret|].
  split; [by eapply returns_output|].
  destruct (returns_pixels _ _ _ _ _ _ _ _ _ _ Hret) as (Hw & Hh & Hpix).
  intros offset i j q Hi Hj Hq Hx Hy.
  assert (Hres : pixel_at res (offset + i) (offset + j)
                 = Some (blend_rgba q transparent q)).
  { rewrite Hpix by lia. fold offset. rewrite decide_True by lia.
    replace (offset + i - offset) with i by lia.
    replace (offset + j - offset) with j by lia.
    by rewrite Hq. }
  split; [done|]. intros Ha. rewrite Hres.
  by rewrite blend_rgba_transparent_mask by (done || apply wf_transparent).
Qed.

(** C4. The paste position: the offset is the floor of
    [(width - new_size) / 2], computed from the width of the image, and it
    is both the column and the row at which the resized content is
    pasted: the pixel [(i, j)] of the resized content lands on the pixel
    [(offset + i, offset + j)] of the canvas. *)
Theorem paste_offset input_path output_path content_percent w w' :
  add_transparent_padding resample input_path output_path content_percent w
    = (w', ok ()) ->
  exists img new_size img_resized res offset,
    files w !! input_path = Some (ImageFile img) /\
    new_size_of (width img) (height img) content_percent = ok new_size /\
    Image_resize resample img (new_size, new_size) = ok img_resized /\
    files w' !! output_path = Some (ImageFile res) /\
    offset = offset_of (width img) new_size /\
    2 * offset <= width img - new_size < 2 * offset + 2 /\
    In (Transparent_margins offset) (stdout w') /\
    forall i j q,
      0 <= i < new_size -> 0 <= j < new_size ->
      pixel_at img_resized i j = Some q ->
      0 <= offset + i < width res -> 0 <= offset + j < height res ->
      pixel_at res (offset + i) (offset + j)
        = Some (blend_rgba q transparent q).
Proof.
  intros Hrun.
  apply add_transparent_padding_returns in Hrun
    as (img & new_size & img_resized & percent & res & Hret).
  exists img, new_size, img_resized, res, (offset_of (width img) new_size).
  split; [apply Hret|]. split; [apply Hret|]. split; [apply Hret|].
  split; [by eapply returns_output|]. split; [done|].
  split.
  { unfold offset_of.
    pose proof (Z.div_mod (width img - new_size) 2 ltac:(lia)).
    pose proof (Z.mod_pos_bound (width img - new_size) 2 ltac:(lia)). lia. }
  destruct (returns_pixels _ _ _ _ _ _ _ _ _ _ Hret) as (Hw & Hh & Hpix).
  split.
  { destruct Hret as (_ & _ & _ & _ & _ & _ & _ & _ & ->). simpl.
    apply in_or_app. right. unfold printed. simpl. tauto. }
  intros i j q Hi Hj Hq Hx Hy.
  rewrite Hpix by lia. rewrite decide_True by lia.
  replace (offset_of (width img) new_size + i - offset_of (width img) new_size)
    with i by lia.
  replace (offset_of (width img) new_size + j - offset_of (width img) new_size)
    with j by lia.
  by rewrite Hq.
Qed.

(** The sign of a product is the exclusive or of the signs. *)
Lemma mul_sign_xorb x y :
  mul x y = NaN \/ sign_bit (mul x y) = xorb (sign_bit x) (sign_bit y).
Proof.
  destruct x as [sx|sx| |sx mx ex], y as [sy|sy| |sy my ey];
    simpl; auto.
  unfold mul. simpl.
  destruct (binary_round_aux_sign (xorb sx sy) (Z.pos (mx * my)) (ex + ey)
              SpecFloat.loc_Exact) as [H|H]; auto.
Qed.

(** For a content percent that is not negative the script's [int] is the
    floor, errors included. *)
Lemma new_size_of_floor width height content_percent :
  0 <= width -> 0 <= height -> sign_bit content_percent = false ->
  new_size_of width height content_percent
    = floor_size_of width height content_percent.
Proof.
  intros Hw Hh Hs. unfold new_size_of, floor_size_of, py_mul_int_float.
  pose proof (of_Z_sign (width `min` height) ltac:(lia)) as Hn.
  assert (Hp : sign_bit (mul (of_Z (width `min` height)) content_percent) = false).
  { destruct (mul_sign_xorb (of_Z (width `min` height)) content_percent)
      as [H|H]; rewrite H; [done|]. by rewrite Hn, Hs. }
  destruct (of_Z (width `min` height)); simpl; try done;
    by apply py_int_nonneg.
Qed.

(** For a negative content percent it is the ceiling. *)
Lemma new_size_of_ceil width height content_percent :
  0 <= width -> 0 <= height -> sign_bit content_percent = true ->
  new_size_of width height content_percent
    = ceil_size_of width height content_percent.
Proof.
  intros Hw Hh Hs. unfold new_size_of, ceil_size_of, py_mul_int_float.
  pose proof (of_Z_sign (width `min` height) ltac:(lia)) as Hn.
  assert (Hp : mul (of_Z (width `min` height)) content_percent = NaN \/
               sign_bit (mul (of_Z (width `min` height)) content_percent) = true).
  { destruct (mul_sign_xorb (of_Z (width `min` height)) content_percent)
      as [H|H]; [by left|right]. by rewrite H, Hn, Hs. }
  destruct (of_Z (width `min` height)); simpl; try done;
    (destruct Hp as [Hp|Hp]; [by rewrite Hp | by apply py_int_neg]).
Qed.

Lemma floor_nonneg m e : 0 <= floor false m e.
Proof.
  unfold floor, signed. simpl. case_decide.
  - apply Z.mul_nonneg_nonneg; [lia|]. by apply Z.pow_nonneg.
  - apply Z.div_pos; [lia|]. apply Z.pow_pos_nonneg; lia.
Qed.

Lemma py_ceil_neg x n : sign_bit x = true -> py_ceil x = ok n -> n <= 0.
Proof.
  destruct x as [s|s| |s m e]; simpl; intros Hs; try done.
  - intros [= <-]. lia.
  - subst s. simpl. intros [= <-]. pose proof (floor_nonneg m e). lia.
Qed.

(** A content size of at least one is the floor of the product. *)
Lemma new_size_of_positive_floor width height content_percent new_size :
  0 <= width -> 0 <= height ->
  new_size_of width height content_percent = ok new_size ->
  1 <= new_size ->
  floor_size_of width height content_percent = ok new_size.
Proof.
  intros Hw Hh Hns Hpos. destruct (sign_bit content_percent) eqn:Hs.
  - rewrite new_size_of_ceil in Hns by done.
    unfold ceil_size_of, py_mul_int_float in Hns.
    pose proof (of_Z_sign (width `min` height) ltac:(lia)) as Hn.
    assert (Hp : forall f, of_Z (width `min` height) = f ->
                   py_ceil (mul f content_percent) = ok new_size -> False).
    { intros f Hf Hc.
      destruct (mul_sign_xorb f content_percent) as [H|H].
      - by rewrite H in Hc.
      - rewrite <- Hf, Hn, Hs in H. simpl in H. rewrite Hf in H.
        apply py_ceil_neg in Hc; [lia|done]. }
    destruct (of_Z (width `min` height)) eqn:Hf; simpl in Hns;
      try done; by eapply Hp in Hns.
  - by rewrite <- new_size_of_floor.
Qed.

(** C3, as amended. The content size is the product
    [min(width, height) * content_percent] rounded towards zero, and it is
    both the width and the height of the resized content.  It is the floor
    of the product when the content percent is not negative, and whenever
    the content size is at least one; it is the ceiling of the product
    when the content percent is negative. *)
Theorem content_size_rounds_towards_zero img content_percent new_size :
  0 <= width img -> 0 <= height img ->
  new_size_of (width img) (height img) content_percent = ok new_size ->
  (forall img_resized,
     Image_resize resample img (new_size, new_size) = ok img_resized ->
     width img_resized = new_size /\ height img_resized = new_size) /\
  (sign_bit content_percent = false ->
   floor_size_of (width img) (height img) content_percent = ok new_size) /\
  (sign_bit content_percent = true ->
   ceil_size_of (width img) (height img) content_percent = ok new_size) /\
  (1 <= new_size ->
   floor_size_of (width img) (height img) content_percent = ok new_size).
Proof.
  intros Hw Hh Hns.
  split.
  { intros img_resized Hrs. apply Image_resize_size in Hrs.
    by injection Hrs. }
  split; [intros Hs; by rewrite <- new_size_of_floor|].
  split; [intros Hs; by rewrite <- new_size_of_ceil|].
  by apply new_size_of_positive_floor.
Qed.

(** In a run that returns the content size is at least one, and it is the
    floor of the product. *)
Lemma returns_content_size_floor input_path output_path content_percent w w'
    img new_size img_resized percent res :
  returns resample input_path output_path content_percent w w'
    img new_size img_resized percent res ->
  1 <= new_size /\
  floor_size_of (width img) (height img) content_percent = ok new_size.
Proof.
  intros (_ & Hw & Hh & Hns & Hrs & _).
  pose proof (Image_resize_positive _ _ _ Hw Hh Hrs) as Hpos.
  split; [done|].
  apply new_size_of_positive_floor; [lia | lia | done | done].
Qed.

Lemma Image_paste_ok self im x0 y0 :
  fits_C_int x0 -> fits_C_int y0 ->
  fits_C_int (width im + x0) -> fits_C_int (height im + y0) ->
  exists res, Image_paste self im (x0, y0) im = ok res.
Proof.
  intros Hx0 Hy0 Hx1 Hy1. unfold Image_paste, ImagingPaste.
  rewrite decide_True by done.
  rewrite decide_False by lia. rewrite decide_False by lia.
  destruct (decide (x0 < 0)), (decide (y0 < 0)); simpl;
    repeat case_decide; eauto.
Qed.

(** C6. The 1024 by 1024 fully opaque red square with the default content
    percent: the content size is 901, the offset is 61, and the run saves a
    1024 by 1024 image that is opaque red on [[61, 962) x [61, 962)] and
    fully transparent elsewhere.  The resampler is taken to turn the
    uniform red square into the uniform red square of the new size. *)
Theorem red_square_example input_path output_path w :
  files w !! input_path = Some (ImageFile (uniform 1024 1024 opaque_red)) ->
  output_path ∉ unwritable w ->
  resample (uniform 1024 1024 opaque_red) 901 901 = uniform 901 901 opaque_red ->
  new_size_of 1024 1024 lit_0_88 = ok 901 /\
  offset_of 1024 901 = 61 /\
  exists w' res,
    add_transparent_padding resample input_path output_path lit_0_88 w
      = (w', ok ()) /\
    In (Content_size 901 88) (stdout w') /\
    In (Transparent_margins 61) (stdout w') /\
    files w' !! output_path = Some (ImageFile res) /\
    width res = 1024 /\ height res = 1024 /\
    forall x y, 0 <= x < 1024 -> 0 <= y < 1024 ->
      pixel_at res x y =
      Some (if decide (61 <= x < 962 /\ 61 <= y < 962)
            then opaque_red else transparent).
Proof.
  intros Hin Hw Hred.
  assert (Hns : new_size_of 1024 1024 lit_0_88 = ok 901) by by vm_compute.
  assert (Hoff : offset_of 1024 901 = 61) by by vm_compute.
  assert (Hpc : percent_of lit_0_88 = ok 88) by by vm_compute.
  split; [done|]. split; [done|].
  assert (Hrs : Image_resize resample (uniform 1024 1024 opaque_red) (901, 901)
                = ok (uniform 901 901 opaque_red)).
  { unfold Image_resize.
    rewrite decide_False by (by intros [=]).
    rewrite decide_True by (unfold fits_C_int; lia).
    rewrite decide_False by lia. by rewrite Hred. }
  destruct (Image_paste_ok (uniform 1024 1024 transparent)
              (uniform 901 901 opaque_red) 61 61) as [res Hres];
    [unfold fits_C_int; simpl; lia..|].
  set (w' := World (<[output_path := ImageFile res]> (files w)) (unwritable w)
               (stdout w ++ printed (uniform 1024 1024 opaque_red) 901 88
                                output_path)).
  assert (Hret : returns resample input_path output_path lit_0_88 w w'
                   (uniform 1024 1024 opaque_red) 901
                   (uniform 901 901 opaque_red) 88 res).
  { unfold returns.
    change (width (uniform 1024 1024 opaque_red)) with 1024.
    change (height (uniform 1024 1024 opaque_red)) with 1024.
    rewrite Hoff. repeat split; try done; lia. }
  exists w', res.
  split; [apply add_transparent_padding_returns; eauto 10|].
  destruct (returns_pixels_sized _ _ _ _ _ _ _ _ _ _ Hret eq_refl)
    as (Hrw & Hrh & Hpix).
  change (width (uniform 1024 1024 opaque_red)) with 1024 in *.
  change (height (uniform 1024 1024 opaque_red)) with 1024 in *.
  rewrite Hoff in Hpix.
  split; [apply in_or_app; right; simpl; tauto|].
  split; [apply in_or_app; right; simpl; rewrite Hoff; tauto|].
  split; [by eapply returns_output|].
  split; [done|]. split; [done|].
  intros x y Hx Hy. rewrite Hpix by done.
  change (61 + 901) with 962.
  case_decide; [|done].
  by rewrite pixel_at_uniform by lia.
Qed.

(** What a run saves, prints and returns or raises depends on the world
    through the file at the input path and the permission to write at the
    output path only. *)
Lemma run_effect input_path output_path content_percent w1 w2 :
  files w1 !! input_path = files w2 !! input_path ->
  (output_path ∈ unwritable w1 <-> output_path ∈ unwritable w2) ->
  exists saved lines r,
    add_transparent_padding resample input_path output_path content_percent w1
      = (effect output_path saved lines w1, r) /\
    add_transparent_padding resample input_path output_path content_percent w2
      = (effect output_path saved lines w2, r) /\
    (r = ok () <-> is_Some saved).
Proof.
  intros Hin Hperm.
  unfold add_transparent_padding, Image_open_RGBA.
  unfold mbind, M_bind, lift, print, Image_save, Image_new, size, ok, raise.
  rewrite Hin.
  assert (Hnone : forall w : world, effect output_path None [] w = w).
  { intros [? ? ?]. unfold effect. simpl. by rewrite app_nil_r. }
  assert (Hfail : forall e : exn, inl e = inr () <-> is_Some (@None image)).
  { intros e. split; [done|]. by intros [? ?]. }
  destruct (files w2 !! input_path) as [[img|?]|];
    [|exists None, [], (inl (UnidentifiedImageError input_path));
      by rewrite !Hnone
     |exists None, [], (inl (FileNotFoundError input_path));
      by rewrite !Hnone].
  case_decide as Hdim;
    [exists None, [], (inl (UnidentifiedImageError input_path));
     by rewrite !Hnone|].
  simpl.
  destruct (new_size_of _ _ _) as [e|new_size]; simpl;
    [by exists None, [Original_size (width img) (height img)], (inl e)|].
  destruct (Image_resize _ _ _) as [e|img_resized]; simpl;
    [by exists None, [Original_size (width img) (height img)], (inl e)|].
  destruct (percent_of _) as [e|percent]; simpl;
    [by exists None, [Original_size (width img) (height img)], (inl e)|].
  rewrite decide_False by lia.
  destruct (Image_paste _ _ _ _) as [e|res]; simpl.
  { exists None, [Original_size (width img) (height img);
                  Content_size new_size percent], (inl e).
    unfold effect. by rewrite <- !(assoc_L (++)). }
  destruct (decide (output_path ∈ unwritable w1)) as [Hw1|Hw1].
  - rewrite decide_True by tauto. simpl.
    exists None, [Original_size (width img) (height img);
                  Content_size new_size percent],
      (inl (OSError output_path)).
    unfold effect. by rewrite <- !(assoc_L (++)).
  - rewrite decide_False by tauto. simpl.
    exists (Some res), (printed img new_size percent output_path), (inr ()).
    unfold effect, printed. rewrite <- !(assoc_L (++)). simpl.
    split; [done|]. split; [done|]. by split; [eexists|].
Qed.

(** C7. Two runs on the same input image, with the same output path and
    the same content percent, end alike, print the same lines and, when
    they return, leave the same image at the output path, whatever else
    the two file systems hold. *)
Theorem rerun_identical input_path output_path content_percent w1 w2 :
  files w1 !! input_path = files w2 !! input_path ->
  (output_path ∈ unwritable w1 <-> output_path ∈ unwritable w2) ->
  let run := add_transparent_padding resample input_path output_path
               content_percent in
  snd (run w1) = snd (run w2) /\
  (exists lines, stdout (fst (run w1)) = stdout w1 ++ lines /\
                 stdout (fst (run w2)) = stdout w2 ++ lines) /\
  (snd (run w1) = ok () ->
   exists res, files (fst (run w1)) !! output_path = Some (ImageFile res) /\
               files (fst (run w2)) !! output_path = Some (ImageFile res)).
Proof.
  intros Hin Hperm run.
  destruct (run_effect input_path output_path content_percent w1 w2 Hin Hperm)
    as (saved & lines & r & H1 & H2 & Hr).
  subst run. simpl. rewrite H1, H2. simpl.
  split; [done|]. split; [by exists lines|].
  intros Hok. apply Hr in Hok as [res ->]. exists res.
  simpl. by rewrite !lookup_insert_eq.
Qed.

(** X11. Run again on the world the first run left, with an output path
    that is not the input path, the script saves the same image again. *)
Lemma rerun_in_sequence input_path output_path content_percent w w' :
  input_path <> output_path ->
  add_transparent_padding resample input_path output_path content_percent w
    = (w', ok ()) ->
  exists w'',
    add_transparent_padding resample input_path output_path content_percent w'
      = (w'', ok ()) /\
    files w'' = files w'.
Proof.
  intros Hne Hrun.
  assert (Hin : files w !! input_path = files w' !! input_path).
  { apply add_transparent_padding_returns in Hrun
      as (? & ? & ? & ? & ? & (_ & _ & _ & _ & _ & _ & _ & _ & ->)).
    simpl. by rewrite lookup_insert_ne. }
  assert (Hperm : output_path ∈ unwritable w <-> output_path ∈ unwritable w').
  { apply add_transparent_padding_returns in Hrun
      as (? & ? & ? & ? & ? & (_ & _ & _ & _ & _ & _ & _ & _ & ->)).
    done. }
  destruct (run_effect input_path output_path content_percent w w' Hin Hperm)
    as (saved & lines & r & H1 & H2 & Hr).
  rewrite Hrun in H1. injection H1 as -> <-.
  destruct Hr as [Hr _]. destruct (Hr eq_refl) as [res ->].
  eexists. split; [exact H2|]. simpl. by rewrite insert_insert_eq.
Qed.

(** ** The command line *)

(** One [x <- lift r; ...] of a computation: the pure step [r] is exposed. *)
Ltac step_lift := unfold mbind at 1, M_bind at 1, lift at 1; simpl.

Variable float_of_string : string -> option float.

(** Without a third argument the content percent is [0.88]. *)
Lemma main_default prog input_file output_file w :
  main resample float_of_string [prog; input_file; output_file] w
  = add_transparent_padding resample input_file output_file lit_0_88 w.
Proof. reflexivity. Qed.

(** C8. With fewer than two positional arguments the script prints the
    two usage lines and exits with status 1; it opens and saves nothing,
    the files are what they were. *)
Theorem usage_error argv w :
  (length argv < 3)%nat ->
  let r := main resample float_of_string argv w in
  stdout (fst r) = stdout w ++ [Usage; Example_usage] /\
  snd r = raise (SystemExit 1) /\
  exit_status (snd r) = 1 /\
  files (fst r) = files w.
Proof.
  intros Hlen r. subst r. unfold main.
  rewrite decide_True by done.
  unfold mbind, M_bind, print, lift. simpl.
  by rewrite <- (assoc_L (++)).
Qed.

(** C9. When the content size is not positive the resize raises: a
    [ValueError] for the size, or an [OverflowError] when the size does
    not even fit a C int.  Nothing catches it: the function and the
    script end with that exception, the exit status is 1 and no file is
    written. *)
Theorem nonpositive_size_fails input_path output_path content_percent w
    img new_size :
  files w !! input_path = Some (ImageFile img) ->
  1 <= width img -> 1 <= height img ->
  new_size_of (width img) (height img) content_percent = ok new_size ->
  new_size <= 0 ->
  exists e,
    Image_resize resample img (new_size, new_size) = raise e /\
    (e = ValueError height_and_width_must_be_positive \/
     e = OverflowError int_out_of_C_int_range) /\
    (fits_C_int new_size -> e = ValueError height_and_width_must_be_positive) /\
    let r := add_transparent_padding resample input_path output_path
               content_percent w in
    snd r = raise e /\ exit_status (snd r) = 1 /\ files (fst r) = files w /\
    forall prog s, float_of_string s = Some content_percent ->
      main resample float_of_string [prog; input_path; output_path; s] w = r.
Proof.
  intros Hin Hw Hh Hns Hle.
  assert (Hrs : exists e,
    Image_resize resample img (new_size, new_size) = raise e /\
    (e = ValueError height_and_width_must_be_positive \/
     e = OverflowError int_out_of_C_int_range) /\
    (fits_C_int new_size -> e = ValueError height_and_width_must_be_positive)).
  { unfold Image_resize, size.
    rewrite decide_False by (intros [=]; lia).
    case_decide as Hfit.
    - rewrite decide_True by lia. eauto.
    - eexists. split; [done|]. split; [by right|]. tauto. }
  destruct Hrs as (e & Hrs & He & Hfit). exists e.
  split; [done|]. split; [done|]. split; [done|].
  assert (Hrun :
    add_transparent_padding resample input_path output_path content_percent w
    = (World (files w) (unwritable w)
             (stdout w ++ [Original_size (width img) (height img)]), raise e)).
  { unfold add_transparent_padding, Image_open_RGBA.
    unfold mbind, M_bind, lift, print, size.
    rewrite Hin. rewrite decide_False by lia. simpl.
    rewrite Hns. simpl. by rewrite Hrs. }
  intros r. subst r. rewrite Hrun. simpl.
  split; [done|]. split; [by destruct He as [-> | ->]|]. split; [done|].
  intros prog s Hs. unfold main. simpl.
  do 3 step_lift.
  unfold py_float. rewrite Hs. simpl. exact Hrun.
Qed.

(** C10. When the third positional argument is no float literal the
    script ends with the [ValueError] of the conversion, before it opens
    or saves anything: the world is as it was, the exit status is 1. *)
Theorem unparseable_percent_fails argv s w :
  argv !! 3%nat = Some s ->
  float_of_string s = None ->
  let r := main resample float_of_string argv w in
  r = (w, raise (ValueError (could_not_convert_string_to_float s))) /\
  exit_status (snd r) = 1.
Proof.
  intros Harg Hs r. subst r.
  destruct argv as [|prog [|input_file [|output_file [|s' rest]]]];
    try done.
  injection Harg as ->.
  unfold main. simpl.
  do 3 step_lift.
  unfold py_float. rewrite Hs. done.
Qed.

End Properties.

(** ** The statements on sample data *)

Lemma nearest_size im xsize ysize :
  1 <= xsize -> 1 <= ysize -> size (nearest im xsize ysize) = (xsize, ysize).
Proof. reflexivity. Qed.

Lemma fmap_seq_const {A} (f : nat -> A) (c : A) (n : nat) :
  (forall i, (i < n)%nat -> f i = c) -> f <$> seq 0 n = replicate n c.
Proof.
  intros Hf. apply list_eq. intros i. rewrite list_lookup_fmap.
  destruct (decide (i < n)%nat) as [Hi|Hi].
  - rewrite lookup_seq_lt by done. simpl.
    rewrite lookup_replicate_2 by done. by rewrite Hf.
  - rewrite lookup_seq_ge by lia. simpl. symmetry.
    apply lookup_replicate_None. lia.
Qed.

(** Nearest-neighbour sampling of a uniform image gives a uniform image. *)
Lemma nearest_uniform w h c xsize ysize :
  1 <= w -> 1 <= h -> 1 <= xsize -> 1 <= ysize ->
  nearest (uniform w h c) xsize ysize = uniform xsize ysize c.
Proof.
  intros Hw Hh Hx Hy. unfold nearest.
  change (uniform xsize ysize c) with
    (Image xsize ysize
       (replicate (Z.to_nat ysize) (replicate (Z.to_nat xsize) c))).
  f_equal.
  apply fmap_seq_const. intros j Hj.
  apply fmap_seq_const. intros i Hi.
  change (width (uniform w h c)) with w.
  change (height (uniform w h c)) with h.
  rewrite pixel_at_uniform; [done| |].
  - split; [apply Z.div_pos; lia|].
    apply Z.div_lt_upper_bound; [lia|]. nia.
  - split; [apply Z.div_pos; lia|].
    apply Z.div_lt_upper_bound; [lia|]. nia.
Qed.

Lemma sample_run :
  add_transparent_padding nearest "icon.png" "out.png" lit_0_88 sample_world
  = (sample_after, ok ()).
Proof. by vm_compute. Qed.

(** On the sample icon the content size is 3 and the offset 0; the
    translucent pixel is weighted by its own alpha. *)
Example sample_run_pixels :
  exists res,
    files sample_after !! "out.png" = Some (ImageFile res) /\
    stdout sample_after
      = [Original_size 4 4; Content_size 3 88; Saved "out.png";
         Transparent_margins 0; Keep_transparent] /\
    pixel_at res 0 0 = Some transparent /\
    pixel_at res 1 0 = Some opaque_red /\
    pixel_at res 1 1 = Some (RGBA 0 128 0 64) /\
    pixel_at res 3 1 = Some transparent.
Proof. eexists. by vm_compute. Qed.

(** On an image that is not square the offset comes from the width, not
    from the smaller dimension. *)
Example offset_uses_width :
  new_size_of 8 6 lit_0_88 = ok 5 /\ offset_of 8 5 = 1 /\
  ((8 `min` 6) - 5) `div` 2 = 0.
Proof. by vm_compute. Qed.

(** The product is the rounded product of the two floats: three times the
    float nearest to 1/3 is [1.0], though the exact product is below one. *)
Example product_is_rounded :
  new_size_of 3 3 one_third = ok 1 /\
  (3 * 6004799503160661) `div` 2 ^ 54 = 0.
Proof. by vm_compute. Qed.

Lemma dimension_preservation_witness :
  add_transparent_padding nearest "icon.png" "out.png" lit_0_88 sample_world
    = (sample_after, ok ()) /\
  exists img res,
    files sample_world !! "icon.png" = Some (ImageFile img) /\
    files sample_after !! "out.png" = Some (ImageFile res) /\
    width res = width img /\ height res = height img /\
    wf_image res.
Proof.
  split; [exact sample_run|].
  exact (dimension_preservation nearest "icon.png" "out.png" lit_0_88
           sample_world sample_after sample_run).
Defined.

Lemma margin_transparent_witness :
  exists img new_size res,
    files sample_world !! "icon.png" = Some (ImageFile img) /\
    new_size_of (width img) (height img) lit_0_88 = ok new_size /\
    files sample_after !! "out.png" = Some (ImageFile res) /\
    let offset := offset_of (width img) new_size in
    forall x y, 0 <= x < width res -> 0 <= y < height res ->
      ~ (offset <= x < offset + new_size /\ offset <= y < offset + new_size) ->
      exists p, pixel_at res x y = Some p /\ alpha p = 0.
Proof.
  exact (margin_transparent nearest nearest_size "icon.png" "out.png" lit_0_88
           sample_world sample_after sample_run).
Defined.

Lemma paste_mask_is_own_alpha_witness :
  exists img new_size img_resized res,
    files sample_world !! "icon.png" = Some (ImageFile img) /\
    new_size_of (width img) (height img) lit_0_88 = ok new_size /\
    Image_resize nearest img (new_size, new_size) = ok img_resized /\
    files sample_after !! "out.png" = Some (ImageFile res) /\
    let offset := offset_of (width img) new_size in
    forall i j q,
      0 <= i < new_size -> 0 <= j < new_size ->
      pixel_at img_resized i j = Some q ->
      0 <= offset + i < width res -> 0 <= offset + j < height res ->
      pixel_at res (offset + i) (offset + j)
        = Some (blend_rgba q transparent q) /\
      (alpha q = 0 ->
       pixel_at res (offset + i) (offset + j) = Some transparent).
Proof.
  exact (paste_mask_is_own_alpha nearest nearest_size "icon.png" "out.png"
           lit_0_88 sample_world sample_after sample_run).
Defined.

Lemma paste_offset_witness :
  exists img new_size img_resized res offset,
    files sample_world !! "icon.png" = Some (ImageFile img) /\
    new_size_of (width img) (height img) lit_0_88 = ok new_size /\
    Image_resize nearest img (new_size, new_size) = ok img_resized /\
    files sample_after !! "out.png" = Some (ImageFile res) /\
    offset = offset_of (width img) new_size /\
    2 * offset <= width img - new_size < 2 * offset + 2 /\
    In (Transparent_margins offset) (stdout sample_after) /\
    forall i j q,
      0 <= i < new_size -> 0 <= j < new_size ->
      pixel_at img_resized i j = Some q ->
      0 <= offset + i < width res -> 0 <= offset + j < height res ->
      pixel_at res (offset + i) (offset + j)
        = Some (blend_rgba q transparent q).
Proof.
  exact (paste_offset nearest nearest_size "icon.png" "out.png" lit_0_88
           sample_world sample_after sample_run).
Defined.

(** The claim of C3 as the specification states it fails on a negative
    content percent: on a 3 by 5 image with the content percent [-0.5] the
    script computes [int(-1.5) = -1], the floor is [-2]. *)
Lemma content_size_is_not_floor :
  new_size_of 3 5 minus_half = ok (-1) /\
  floor_size_of 3 5 minus_half = ok (-2) /\
  new_size_of 3 5 minus_half <> floor_size_of 3 5 minus_half.
Proof. by vm_compute. Qed.

Lemma content_size_rounds_towards_zero_witness :
  new_size_of (width sample_icon) (height sample_icon) lit_0_88 = ok 3 /\
  (forall img_resized,
     Image_resize nearest sample_icon (3, 3) = ok img_resized ->
     width img_resized = 3 /\ height img_resized = 3) /\
  (sign_bit lit_0_88 = false ->
   floor_size_of (width sample_icon) (height sample_icon) lit_0_88 = ok 3) /\
  (sign_bit lit_0_88 = true ->
   ceil_size_of (width sample_icon) (height sample_icon) lit_0_88 = ok 3) /\
  (1 <= 3 ->
   floor_size_of (width sample_icon) (height sample_icon) lit_0_88 = ok 3).
Proof.
  split; [by vm_compute|].
  apply (content_size_rounds_towards_zero nearest nearest_size sample_icon
           lit_0_88 3); [by vm_compute | by vm_compute | by vm_compute].
Defined.

Lemma red_square_example_witness :
  new_size_of 1024 1024 lit_0_88 = ok 901 /\
  offset_of 1024 901 = 61 /\
  exists w' res,
    add_transparent_padding nearest "icon.png" "padded.png" lit_0_88 red_world
      = (w', ok ()) /\
    In (Content_size 901 88) (stdout w') /\
    In (Transparent_margins 61) (stdout w') /\
    files w' !! "padded.png" = Some (ImageFile res) /\
    width res = 1024 /\ height res = 1024 /\
    forall x y, 0 <= x < 1024 -> 0 <= y < 1024 ->
      pixel_at res x y =
      Some (if decide (61 <= x < 962 /\ 61 <= y < 962)
            then opaque_red else transparent).
Proof.
  apply (red_square_example nearest "icon.png" "padded.png" red_world).
  - apply lookup_singleton_eq.
  - apply not_elem_of_empty.
  - apply nearest_uniform; lia.
Defined.

Lemma rerun_identical_witness :
  let run := add_transparent_padding nearest "icon.png" "out.png" lit_0_88 in
  snd (run sample_world) = snd (run other_world) /\
  (exists lines, stdout (fst (run sample_world)) = stdout sample_world ++ lines /\
                 stdout (fst (run other_world)) = stdout other_world ++ lines) /\
  (snd (run sample_world) = ok () ->
   exists res,
     files (fst (run sample_world)) !! "out.png" = Some (ImageFile res) /\
     files (fst (run other_world)) !! "out.png" = Some (ImageFile res)).
Proof.
  apply (rerun_identical nearest "icon.png" "out.png" lit_0_88
           sample_world other_world).
  - by vm_compute.
  - unfold sample_world, other_world. simpl.
    split; intros H; exfalso; revert H; [apply not_elem_of_empty|].
    rewrite elem_of_singleton. discriminate.
Defined.

Lemma usage_error_witness :
  let r := main nearest sample_float_of_string
             ["add-icon-padding.py"; "icon.png"] sample_world in
  stdout (fst r) = stdout sample_world ++ [Usage; Example_usage] /\
  snd r = raise (SystemExit 1) /\
  exit_status (snd r) = 1 /\
  files (fst r) = files sample_world.
Proof.
  apply (usage_error nearest sample_float_of_string
           ["add-icon-padding.py"; "icon.png"] sample_world).
  simpl. lia.
Defined.

Lemma nonpositive_size_fails_witness :
  new_size_of (width sample_icon) (height sample_icon) minus_half = ok (-2) /\
  exists e,
    Image_resize nearest sample_icon (-2, -2) = raise e /\
    (e = ValueError height_and_width_must_be_positive \/
     e = OverflowError int_out_of_C_int_range) /\
    (fits_C_int (-2) -> e = ValueError height_and_width_must_be_positive) /\
    let r := add_transparent_padding nearest "icon.png" "out.png" minus_half
               sample_world in
    snd r = raise e /\ exit_status (snd r) = 1 /\
    files (fst r) = files sample_world /\
    forall prog s, sample_float_of_string s = Some minus_half ->
      main nearest sample_float_of_string [prog; "icon.png"; "out.png"; s]
        sample_world = r.
Proof.
  split; [by vm_compute|].
  apply (nonpositive_size_fails nearest sample_float_of_string
           "icon.png" "out.png" minus_half sample_world sample_icon (-2)).
  - by vm_compute.
  - simpl. lia.
  - simpl. lia.
  - by vm_compute.
  - lia.
Defined.

Lemma unparseable_percent_fails_witness :
  sample_float_of_string "eighty" = None /\
  let r := main nearest sample_float_of_string
             ["add-icon-padding.py"; "icon.png"; "out.png"; "eighty"]
             sample_world in
  r = (sample_world,
       raise (ValueError (could_not_convert_string_to_float "eighty"))) /\
  exit_status (snd r) = 1.
Proof.
  split; [by vm_compute|].
  apply (unparseable_percent_fails nearest sample_float_of_string
           ["add-icon-padding.py"; "icon.png"; "out.png"; "eighty"]
           "eighty" sample_world).
  - reflexivity.
  - by vm_compute.
Defined.

(** * Further properties *)

(** ** Blending on the transparent canvas *)

Lemma scaled_band_check_all :
  forallb (fun c => forallb (scaled_band_check c) (seq 0 256)) (seq 0 256) = true.
Proof. by vm_compute. Qed.

(** On the transparent canvas a band [c] pasted with the weight [a] comes
    out as [c * a / 255], rounded to the nearest integer. *)
Lemma BLEND_on_transparent c a :
  0 <= c < 256 -> 0 <= a < 256 -> scaled_band c a (UINT8 (BLEND a 0 c)).
Proof.
  intros Hc Ha.
  pose proof scaled_band_check_all as Hall.
  rewrite forallb_forall in Hall.
  specialize (Hall (Z.to_nat c)).
  rewrite forallb_forall in Hall.
  specialize (Hall ltac:(apply in_seq; lia) (Z.to_nat a) ltac:(apply in_seq; lia)).
  unfold scaled_band_check in Hall. rewrite !Z2Nat.id in Hall by lia.
  apply andb_prop in Hall as [Hall H3]. apply andb_prop in Hall as [H1 H2].
  unfold scaled_band. lia.
Qed.

(** The alpha band of a translucent pixel gets smaller. *)
Lemma alpha_on_transparent a :
  0 < a < 255 -> UINT8 (BLEND a 0 a) < a.
Proof.
  intros Ha.
  destruct (BLEND_on_transparent a a ltac:(lia) ltac:(lia)) as [Hr Hd].
  nia.
Qed.

(** ** Images with the same pixels *)

Lemma pixel_at_lookup im (i j : nat) :
  pixel_at im (Z.of_nat i) (Z.of_nat j) = (rows im !! j) ≫= (.!! i).
Proof.
  unfold pixel_at. rewrite decide_True by lia. by rewrite !Nat2Z.id.
Qed.

(** Two well-formed images of the same size with the same pixels are the
    same image. *)
Lemma image_ext a b :
  wf_image a -> wf_image b ->
  width a = width b -> height a = height b ->
  (forall x y, 0 <= x < width a -> 0 <= y < height a ->
     pixel_at a x y = pixel_at b x y) ->
  a = b.
Proof.
  destruct a as [wa ha ra], b as [wb hb rb].
  intros (Hwa & Hha & Hla & Hra) (Hwb & Hhb & Hlb & Hrb). simpl in *.
  intros <- <- Hpix. f_equal.
  apply list_eq. intros j.
  destruct (decide (j < Z.to_nat ha)%nat) as [Hj|Hj].
  - destruct (lookup_lt_is_Some_2 ra j ltac:(lia)) as [rowa Hrowa].
    destruct (lookup_lt_is_Some_2 rb j ltac:(lia)) as [rowb Hrowb].
    rewrite Hrowa, Hrowb. f_equal.
    pose proof (Forall_lookup_1 _ _ _ _ Hra Hrowa) as [Hlena _].
    pose proof (Forall_lookup_1 _ _ _ _ Hrb Hrowb) as [Hlenb _].
    apply list_eq. intros i.
    destruct (decide (i < Z.to_nat wa)%nat) as [Hi|Hi].
    + specialize (Hpix (Z.of_nat i) (Z.of_nat j) ltac:(lia) ltac:(lia)).
      rewrite !pixel_at_lookup in Hpix. simpl in Hpix.
      by rewrite Hrowa, Hrowb in Hpix.
    + rewrite !lookup_ge_None_2 by lia. done.
  - rewrite !lookup_ge_None_2 by lia. done.
Qed.

Lemma pixel_at_opaque im x y q :
  fully_opaque im -> pixel_at im x y = Some q -> alpha q = 255.
Proof.
  unfold fully_opaque, pixel_at. intros Hop.
  case_decide; [|done].
  destruct (rows im !! Z.to_nat y) as [row|] eqn:Hrow; [|done]. simpl.
  intros Hq.
  pose proof (Forall_lookup_1 _ _ _ _ Hop Hrow) as Hr.
  by apply (Forall_lookup_1 _ _ _ _ Hr Hq).
Qed.

Lemma pixel_at_wf im x y q :
  wf_image im -> pixel_at im x y = Some q ->
  wf_rgba q /\ 0 <= x < width im /\ 0 <= y < height im.
Proof.
  unfold pixel_at. intros (Hw & Hh & Hlen & Hrows).
  case_decide; [|done].
  destruct (rows im !! Z.to_nat y) as [row|] eqn:Hrow; [|done]. simpl.
  intros Hq.
  pose proof (Forall_lookup_1 _ _ _ _ Hrows Hrow) as [Hlenrow Hpix].
  apply lookup_lt_Some in Hrow. apply lookup_lt_Some in Hq as Hlt.
  split; [by apply (Forall_lookup_1 _ _ _ _ Hpix Hq)|]. lia.
Qed.

Lemma pixel_at_wf_Some im x y :
  wf_image im -> 0 <= x < width im -> 0 <= y < height im ->
  is_Some (pixel_at im x y).
Proof.
  unfold pixel_at. intros (Hw & Hh & Hlen & Hrows) Hx Hy.
  rewrite decide_True by lia.
  destruct (lookup_lt_is_Some_2 (rows im) (Z.to_nat y) ltac:(lia)) as [row Hrow].
  rewrite Hrow. simpl.
  pose proof (Forall_lookup_1 _ _ _ _ Hrows Hrow) as [Hlenrow _].
  apply lookup_lt_is_Some_2. lia.
Qed.

(** ** What the pasted pixels are *)

Section Content.

Variable resample : image -> Z -> Z -> image.

Hypothesis resample_size : forall im xsize ysize,
  1 <= xsize -> 1 <= ysize -> size (resample im xsize ysize) = (xsize, ysize).

(** X1. A fully opaque pixel of the resized content is copied to the canvas
    as it is. *)
Theorem opaque_content_copied input_path output_path content_percent w w' :
  add_transparent_padding resample input_path output_path content_percent w
    = (w', ok ()) ->
  exists img new_size img_resized res,
    files w !! input_path = Some (ImageFile img) /\
    new_size_of (width img) (height img) content_percent = ok new_size /\
    Image_resize resample img (new_size, new_size) = ok img_resized /\
    files w' !! output_path = Some (ImageFile res) /\
    let offset := offset_of (width img) new_size in
    forall i j q,
      0 <= i < new_size -> 0 <= j < new_size ->
      pixel_at img_resized i j = Some q ->
      wf_rgba q -> alpha q = 255 ->
      0 <= offset + i < width res -> 0 <= offset + j < height res ->
      pixel_at res (offset + i) (offset + j) = Some q.
Proof.
  intros Hrun.
  apply add_transparent_padding_returns in Hrun
    as (img & new_size & img_resized & percent & res & Hret).
  exists img, new_size, img_resized, res.
  split; [apply Hret|]. split; [apply Hret|]. split; [apply Hret|].
  split; [by eapply returns_output|].
  destruct (returns_pixels resample resample_size _ _ _ _ _ _ _ _ _ _ Hret)
    as (Hw & Hh & Hpix).
  intros offset i j q Hi Hj Hq Hwf Ha Hx Hy.
  rewrite Hpix by lia. fold offset. rewrite decide_True by lia.
  replace (offset + i - offset) with i by lia.
  replace (offset + j - offset) with j by lia.
  rewrite Hq. by rewrite blend_rgba_opaque_mask.
Qed.

(** X2. A pixel of the resized content comes out with every band, alpha
    included, multiplied by its alpha over 255 and rounded to the nearest
    integer; the alpha of a translucent pixel comes out smaller than it
    was. *)
Theorem translucent_content_scaled input_path output_path content_percent w w' :
  add_transparent_padding resample input_path output_path content_percent w
    = (w', ok ()) ->
  exists img new_size img_resized res,
    files w !! input_path = Some (ImageFile img) /\
    new_size_of (width img) (height img) content_percent = ok new_size /\
    Image_resize resample img (new_size, new_size) = ok img_resized /\
    files w' !! output_path = Some (ImageFile res) /\
    let offset := offset_of (width img) new_size in
    forall i j q,
      0 <= i < new_size -> 0 <= j < new_size ->
      pixel_at img_resized i j = Some q ->
      wf_rgba q ->
      0 <= offset + i < width res -> 0 <= offset + j < height res ->
      exists p,
        pixel_at res (offset + i) (offset + j) = Some p /\
        scaled_band (red q) (alpha q) (red p) /\
        scaled_band (green q) (alpha q) (green p) /\
        scaled_band (blue q) (alpha q) (blue p) /\
        scaled_band (alpha q) (alpha q) (alpha p) /\
        (0 < alpha q < 255 -> alpha p < alpha q).
Proof.
  intros Hrun.
  apply add_transparent_padding_returns in Hrun
    as (img & new_size & img_resized & percent & res & Hret).
  exists img, new_size, img_resized, res.
  split; [apply Hret|]. split; [apply Hret|]. split; [apply Hret|].
  split; [by eapply returns_output|].
  destruct (returns_pixels resample resample_size _ _ _ _ _ _ _ _ _ _ Hret)
    as (Hw & Hh & Hpix).
  intros offset i j q Hi Hj Hq (Hr & Hg & Hb & Ha) Hx Hy.
  exists (blend_rgba q transparent q).
  split.
  { rewrite Hpix by lia. fold offset. rewrite decide_True by lia.
    replace (offset + i - offset) with i by lia.
    replace (offset + j - offset) with j by lia.
    by rewrite Hq. }
  unfold blend_rgba, transparent. simpl.
  repeat split; try (by apply BLEND_on_transparent);
    try (by apply (BLEND_on_transparent _ _ ltac:(done) ltac:(done))).
  intros Hlt. by apply alpha_on_transparent.
Qed.

(** X3. When the content size is the width and the height of the image
    (content percent 1.0 on a square image) the resize is a copy and the
    paste covers the canvas: a fully opaque image is saved as it was. *)
Theorem full_size_opaque_unchanged input_path output_path content_percent w w' img :
  files w !! input_path = Some (ImageFile img) ->
  wf_image img -> fully_opaque img ->
  height img = width img ->
  new_size_of (width img) (height img) content_percent = ok (width img) ->
  add_transparent_padding resample input_path output_path content_percent w
    = (w', ok ()) ->
  files w' !! output_path = Some (ImageFile img).
Proof.
  intros Hin Hwf Hop Hsq Hns Hrun.
  apply add_transparent_padding_returns in Hrun
    as (img' & new_size & img_resized & percent & res & Hret).
  rewrite (returns_output _ _ _ _ _ _ _ _ _ _ _ Hret). do 2 f_equal.
  destruct Hret as (Hin' & Hw1 & Hh1 & Hns' & Hrs & _ & Hpaste & _ & _).
  rewrite Hin in Hin'. injection Hin' as <-.
  rewrite Hns in Hns'. injection Hns' as <-.
  assert (img_resized = img) as ->.
  { unfold Image_resize, size in Hrs. rewrite Hsq in Hrs.
    rewrite decide_True in Hrs by done. by injection Hrs. }
  assert (Hoff : offset_of (width img) (width img) = 0).
  { unfold offset_of. by rewrite Z.sub_diag. }
  rewrite Hoff in Hpaste.
  assert (Hwfres : wf_image res).
  { eapply wf_Image_paste; [|exact Hpaste].
    apply wf_uniform; [lia..|apply wf_transparent]. }
  apply Image_paste_uniform in Hpaste as (Hw & Hh & Hpix).
  apply image_ext; try done.
  intros x y Hx Hy. rewrite Hw in Hx. rewrite Hh in Hy.
  rewrite Hpix by done. rewrite decide_True by lia.
  rewrite !Z.sub_0_r.
  destruct (pixel_at_wf_Some img x y Hwf ltac:(lia) ltac:(lia)) as [q Hq].
  rewrite Hq. f_equal.
  apply blend_rgba_opaque_mask.
  - by eapply pixel_at_opaque.
  - by destruct (pixel_at_wf _ _ _ _ Hwf Hq).
Qed.

(** X4. The offset comes from the width and is used for the rows too: on an
    image so wide that the offset reaches its height, the content is pasted
    below the canvas and the saved image is fully transparent. *)
Theorem wide_image_content_lost input_path output_path content_percent w w' :
  add_transparent_padding resample input_path output_path content_percent w
    = (w', ok ()) ->
  exists img new_size res,
    files w !! input_path = Some (ImageFile img) /\
    new_size_of (width img) (height img) content_percent = ok new_size /\
    files w' !! output_path = Some (ImageFile res) /\
    (height img <= offset_of (width img) new_size ->
     forall x y, 0 <= x < width res -> 0 <= y < height res ->
       pixel_at res x y = Some transparent).
Proof.
  intros Hrun.
  apply add_transparent_padding_returns in Hrun
    as (img & new_size & img_resized & percent & res & Hret).
  exists img, new_size, res.
  split; [apply Hret|]. split; [apply Hret|].
  split; [by eapply returns_output|].
  destruct Hret as (_ & _ & _ & _ & _ & _ & Hpaste & _ & _).
  apply Image_paste_uniform in Hpaste as (Hw & Hh & Hpix).
  intros Hwide x y Hx Hy. rewrite Hpix by lia.
  by rewrite decide_False by lia.
Qed.

End Content.

(** ** Where the content lands *)


(** ** How a run ends *)

Section Outcomes.

Variable resample : image -> Z -> Z -> image.

Hypothesis resample_size : forall im xsize ysize,
  1 <= xsize -> 1 <= ysize -> size (resample im xsize ysize) = (xsize, ysize).

(** X6. The paste cannot raise: once the resize of an image whose sides fit
    a C int has returned, and the percentage is printed, the run returns
    when the output path can be written, and ends with the [OSError] of the
    save, no file changed, when it cannot. *)
Theorem paste_cannot_fail input_path output_path content_percent w
    img new_size img_resized percent :
  files w !! input_path = Some (ImageFile img) ->
  1 <= width img < 2 ^ 31 -> 1 <= height img < 2 ^ 31 ->
  new_size_of (width img) (height img) content_percent = ok new_size ->
  Image_resize resample img (new_size, new_size) = ok img_resized ->
  percent_of content_percent = ok percent ->
  let r := add_transparent_padding resample input_path output_path
             content_percent w in
  (output_path ∉ unwritable w -> snd r = ok ()) /\
  (output_path ∈ unwritable w ->
   snd r = raise (OSError output_path) /\ files (fst r) = files w).
Proof.
  intros Hin Hw Hh Hns Hrs Hpc r.
  pose proof (Image_resize_size resample resample_size _ _ _ Hrs) as Hsz.
  injection Hsz as Hrw Hrh.
  pose proof (Image_resize_positive resample img new_size img_resized
                ltac:(lia) ltac:(lia) Hrs) as Hpos.
  assert (Hlt : new_size < 2 ^ 31).
  { unfold Image_resize, size in Hrs.
    case_decide as Hsame; [injection Hsame; lia|].
    case_decide as Hfit; [|done]. unfold fits_C_int in Hfit. lia. }
  assert (Hoff : 2 * offset_of (width img) new_size <= width img - new_size
                 < 2 * offset_of (width img) new_size + 2).
  { unfold offset_of.
    pose proof (Z.div_mod (width img - new_size) 2 ltac:(lia)).
    pose proof (Z.mod_pos_bound (width img - new_size) 2 ltac:(lia)). lia. }
  destruct (Image_paste_ok (uniform (width img) (height img) transparent)
              img_resized (offset_of (width img) new_size)
              (offset_of (width img) new_size)) as [res Hres];
    [unfold fits_C_int; lia..|].
  subst r. unfold add_transparent_padding, Image_open_RGBA.
  unfold mbind, M_bind, lift, print, Image_save, Image_new, size, ok, raise.
  rewrite Hin. rewrite decide_False by lia. simpl.
  rewrite Hns. simpl. rewrite Hrs. simpl. rewrite Hpc. simpl.
  rewrite decide_False by lia. rewrite Hres. simpl.
  split; intros Hperm.
  - by rewrite decide_False by done.
  - by rewrite decide_True by done.
Qed.




End Outcomes.

(** ** How the script ends *)


Section Endings.

Variable resample : image -> Z -> Z -> image.
Variable float_of_string : string -> option float.




(** X10. A content percent that is NaN or infinite is not refused when it is
    given, but no image comes of it: [int] raises on line 28, after the
    original size was printed, and no file is written. *)
Theorem non_finite_percent_fails input_path output_path content_percent w img :
  files w !! input_path = Some (ImageFile img) ->
  1 <= width img -> 1 <= height img ->
  (content_percent = NaN \/ exists s, content_percent = Infinity s) ->
  exists e,
    add_transparent_padding resample input_path output_path content_percent w
    = (World (files w) (unwritable w)
             (stdout w ++ [Original_size (width img) (height img)]), raise e) /\
    (e = ValueError cannot_convert_float_NaN_to_integer \/
     e = OverflowError cannot_convert_float_infinity_to_integer \/
     e = OverflowError int_too_large_to_convert_to_float).
Proof.
  intros Hin Hw Hh Hcp.
  assert (Hns : exists e,
    new_size_of (width img) (height img) content_percent = raise e /\
    (e = ValueError cannot_convert_float_NaN_to_integer \/
     e = OverflowError cannot_convert_float_infinity_to_integer \/
     e = OverflowError int_too_large_to_convert_to_float)).
  { unfold new_size_of, py_mul_int_float.
    destruct (of_Z (width img `min` height img)) as [s0|s0| |s0 m0 e0];
      destruct Hcp as [->|[s ->]]; unfold mul; simpl; eauto 10. }
  destruct Hns as (e & Hns & He). exists e. split; [|done].
  unfold add_transparent_padding, Image_open_RGBA.
  unfold mbind, M_bind, lift, print, size.
  rewrite Hin. rewrite decide_False by lia. simpl.
  by rewrite Hns.
Qed.

End Endings.

(** ** The further statements on sample data *)

Lemma opaque_content_copied_witness :
  exists img new_size img_resized res,
    files sample_world !! "icon.png" = Some (ImageFile img) /\
    new_size_of (width img) (height img) lit_0_88 = ok new_size /\
    Image_resize nearest img (new_size, new_size) = ok img_resized /\
    files sample_after !! "out.png" = Some (ImageFile res) /\
    let offset := offset_of (width img) new_size in
    forall i j q,
      0 <= i < new_size -> 0 <= j < new_size ->
      pixel_at img_resized i j = Some q ->
      wf_rgba q -> alpha q = 255 ->
      0 <= offset + i < width res -> 0 <= offset + j < height res ->
      pixel_at res (offset + i) (offset + j) = Some q.
Proof.
  exact (opaque_content_copied nearest nearest_size "icon.png" "out.png"
           lit_0_88 sample_world sample_after sample_run).
Defined.

Lemma translucent_content_scaled_witness :
  exists img new_size img_resized res,
    files sample_world !! "icon.png" = Some (ImageFile img) /\
    new_size_of (width img) (height img) lit_0_88 = ok new_size /\
    Image_resize nearest img (new_size, new_size) = ok img_resized /\
    files sample_after !! "out.png" = Some (ImageFile res) /\
    let offset := offset_of (width img) new_size in
    forall i j q,
      0 <= i < new_size -> 0 <= j < new_size ->
      pixel_at img_resized i j = Some q ->
      wf_rgba q ->
      0 <= offset + i < width res -> 0 <= offset + j < height res ->
      exists p,
        pixel_at res (offset + i) (offset + j) = Some p /\
        scaled_band (red q) (alpha q) (red p) /\
        scaled_band (green q) (alpha q) (green p) /\
        scaled_band (blue q) (alpha q) (blue p) /\
        scaled_band (alpha q) (alpha q) (alpha p) /\
        (0 < alpha q < 255 -> alpha p < alpha q).
Proof.
  exact (translucent_content_scaled nearest nearest_size "icon.png" "out.png"
           lit_0_88 sample_world sample_after sample_run).
Defined.

Lemma full_size_opaque_unchanged_witness :
  let r := add_transparent_padding nearest "checker.png" "same.png" one
             more_world in
  r = (fst r, ok ()) /\
  files (fst r) !! "same.png" = Some (ImageFile checker_icon).
Proof.
  assert (Hrun : add_transparent_padding nearest "checker.png" "same.png" one
                   more_world
                 = (fst (add_transparent_padding nearest "checker.png"
                           "same.png" one more_world), ok ()))
    by by vm_compute.
  split; [exact Hrun|].
  apply (full_size_opaque_unchanged nearest "checker.png" "same.png" one
           more_world _ checker_icon); [| | | | |exact Hrun].
  - by vm_compute.
  - unfold wf_image, wf_row, wf_rgba, checker_icon. simpl.
    repeat (split || constructor); simpl; lia.
  - unfold fully_opaque, checker_icon. simpl. by repeat constructor.
  - reflexivity.
  - by vm_compute.
Defined.

Lemma wide_image_content_lost_witness :
  let r := add_transparent_padding nearest "strip.png" "out.png" lit_0_88
             more_world in
  r = (fst r, ok ()) /\
  exists img new_size res,
    files more_world !! "strip.png" = Some (ImageFile img) /\
    new_size_of (width img) (height img) lit_0_88 = ok new_size /\
    files (fst r) !! "out.png" = Some (ImageFile res) /\
    (height img <= offset_of (width img) new_size ->
     forall x y, 0 <= x < width res -> 0 <= y < height res ->
       pixel_at res x y = Some transparent).
Proof.
  assert (Hrun : add_transparent_padding nearest "strip.png" "out.png" lit_0_88
                   more_world
                 = (fst (add_transparent_padding nearest "strip.png"
                           "out.png" lit_0_88 more_world), ok ()))
    by by vm_compute.
  split; [exact Hrun|].
  exact (wide_image_content_lost nearest "strip.png" "out.png" lit_0_88
           more_world _ Hrun).
Defined.

(** On the 20 by 6 strip the content size is 5 and the offset 7, which is
    beyond the last row. *)
Example strip_offset_beyond_height :
  new_size_of 20 6 lit_0_88 = ok 5 /\ offset_of 20 5 = 7.
Proof. by vm_compute. Qed.

Lemma paste_cannot_fail_witness :
  let r := add_transparent_padding nearest "checker.png" "locked.png" one
             more_world in
  ("locked.png" ∉ unwritable more_world -> snd r = ok ()) /\
  ("locked.png" ∈ unwritable more_world ->
   snd r = raise (OSError "locked.png") /\ files (fst r) = files more_world).
Proof.
  apply (paste_cannot_fail nearest nearest_size "checker.png" "locked.png" one
           more_world checker_icon 2 checker_icon 100).
  - by vm_compute.
  - simpl. lia.
  - simpl. lia.
  - by vm_compute.
  - by vm_compute.
  - by vm_compute.
Defined.

Lemma non_finite_percent_fails_witness :
  exists e,
    add_transparent_padding nearest "icon.png" "out.png" NaN sample_world
    = (World (files sample_world) (unwritable sample_world)
             (stdout sample_world
              ++ [Original_size (width sample_icon) (height sample_icon)]),
       raise e) /\
    (e = ValueError cannot_convert_float_NaN_to_integer \/
     e = OverflowError cannot_convert_float_infinity_to_integer \/
     e = OverflowError int_too_large_to_convert_to_float).
Proof.
  apply (non_finite_percent_fails nearest "icon.png" "out.png" NaN
           sample_world sample_icon).
  - by vm_compute.
  - simpl. lia.
  - simpl. lia.
  - by left.
Defined.

Lemma rerun_in_sequence_witness :
  "icon.png" <> "out.png" /\
  exists w'',
    add_transparent_padding nearest "icon.png" "out.png" lit_0_88 sample_after
      = (w'', ok ()) /\
    files w'' = files sample_after.
Proof.
  split; [done|].
  apply (rerun_in_sequence nearest "icon.png" "out.png" lit_0_88
           sample_world sample_after); [done|exact sample_run].
Defined.
